(** * acmev2: an ACME v2 client library

    A shallow embedding of the Go package [acmev2] (the client with its
    account request, the Route 53 DNS modifier and the Secrets Manager
    certificate store) and the properties of its nonce handling, challenge
    flow, key-authorization derivation and AWS collaborators.

    Conventions of the embedding:
    - a Go [string] is a [string] of bytes; a Go [error] is its message,
      and an [error] result is an [option error] ([None] is [nil]);
    - a Go call either returns, panics (a run-time error such as a slice
      bound out of range) or ends the process ([log.Fatal]); see [outcome];
    - calls that leave the process (HTTP, AWS, DNS) are answered by an
      explicit environment and recorded in a trace, so that "is called",
      "is sent" and "exactly once" are statements about that trace;
    - diagnostic output ([fmt.Println], [Client.log]) influences no decision
      of the code and is left out. *)

From Stdlib Require Import String Ascii List Bool Arith ZArith Lia.
Import ListNotations.
Open Scope string_scope.

(** ** Go values shared by all files of the package *)

Definition error := string.

Inductive outcome (A : Type) : Type :=
| Returned (a : A)          (* the call returns to its caller *)
| Panicked (msg : string)   (* a run-time panic unwinds the call *)
| Exited (code : Z).        (* log.Fatal: os.Exit(1), no deferred call runs *)
Arguments Returned {A} a.
Arguments Panicked {A} msg.
Arguments Exited {A} code.

(** ** The part of Go's standard library the package uses *)

Module Go.

(** [len(s)] *)
Definition len (s : string) : nat := String.length s.

(** [strings.HasPrefix(s, p)] *)
Definition HasPrefix (s p : string) : bool := String.prefix p s.

(** [strings.Split(s, sep)] for a one-byte separator: the pieces between
    the separators, [n+1] pieces for [n] separators, so never empty. *)
Fixpoint Split (s : string) (sep : ascii) : list string :=
  match s with
  | EmptyString => [EmptyString]
  | String c r =>
      if Ascii.eqb c sep then EmptyString :: Split r sep
      else match Split r sep with
           | h :: t => String c h :: t
           | [] => [String c EmptyString]
           end
  end.

(** The bytes in the pieces of a split string. *)
Fixpoint totalLen (l : list string) : nat :=
  match l with
  | [] => 0
  | s :: r => String.length s + totalLen r
  end.

(** [strings.Join(l, sep)] *)
Definition Join (l : list string) (sep : string) : string := String.concat sep l.

(** [s[:n]]: panics when [n > len(s)]. *)
Definition slice_to (s : string) (n : nat) : outcome string :=
  if Nat.ltb (len s) n then Panicked "slice bounds out of range"
  else Returned (String.substring 0 n s).

(** [s[n:]] for [n <= len(s)]. *)
Definition slice_from (s : string) (n : nat) : string :=
  String.substring n (len s - n) s.

(** [l[:n]] and [l[n:]] on a slice, within bounds. *)
Definition take {A} (n : nat) (l : list A) : list A := firstn n l.
Definition drop {A} (n : nat) (l : list A) : list A := skipn n l.

Definition dquote : ascii := ascii_of_nat 34.
Definition backslash : ascii := ascii_of_nat 92.

Definition lowerhex (n : nat) : ascii :=
  match String.get n "0123456789abcdef" with
  | Some c => c
  | None => "0"%char
  end.

(** One byte of [strconv.Quote]: the quote and the backslash are
    backslashed, printable ASCII is kept, the usual control characters have
    a letter escape and any other byte is written [\xhh]. *)
Definition quoteByte (c : ascii) : string :=
  let n := nat_of_ascii c in
  if Ascii.eqb c dquote then String backslash (String dquote EmptyString)
  else if Ascii.eqb c backslash then String backslash (String backslash EmptyString)
  else if andb (Nat.leb 32 n) (Nat.leb n 126) then String c EmptyString
  else if Nat.eqb n 7 then "\a"
  else if Nat.eqb n 8 then "\b"
  else if Nat.eqb n 12 then "\f"
  else if Nat.eqb n 10 then "\n"
  else if Nat.eqb n 13 then "\r"
  else if Nat.eqb n 9 then "\t"
  else if Nat.eqb n 11 then "\v"
  else String backslash (String "x"%char
         (String (lowerhex (n / 16)) (String (lowerhex (n mod 16)) EmptyString))).

Fixpoint quoteBody (s : string) : string :=
  match s with
  | EmptyString => EmptyString
  | String c r => quoteByte c ++ quoteBody r
  end.

(** [fmt.Sprintf("%q", s)], that is [strconv.Quote(s)]: the string between
    double quotes with Go escapes. Exact on ASCII strings; a byte above
    0x7f is written the way Go writes a byte that is not valid UTF-8. *)
Definition Quote (s : string) : string :=
  String dquote (quoteBody s ++ String dquote EmptyString).

End Go.

(** ** route53.go: the DNS collaborator on AWS Route 53 *)

Module Route53.

Record ResourceRecord := { Value : string }.

Record ResourceRecordSet := {
  Name : string;
  ResourceRecords : list ResourceRecord;
  TTL : Z;
  Type_ : string
}.

Record Change := {
  Action : string;
  ResourceRecordSet_ : ResourceRecordSet
}.

Record ChangeBatch := {
  Changes : list Change;
  Comment : string
}.

Record ChangeResourceRecordSetsInput := {
  ChangeBatch_ : ChangeBatch;
  HostedZoneId : string
}.

Record ListHostedZonesByNameInput := {
  DNSName : string;
  MaxItems : string
}.

Record HostedZone := { Id : string }.

(** The AWS service behind [*route53.Route53]: what it answers to the two
    requests the package makes. *)
Record API := {
  ListHostedZonesByName :
    ListHostedZonesByNameInput -> list HostedZone * option error;
  ChangeResourceRecordSets :
    ChangeResourceRecordSetsInput -> option error
}.

(** [type Route53 struct { r53 *route53.Route53 }] *)
Record Route53 := { r53 : API }.

(** The requests one operation made, oldest first. *)
Inductive APICall :=
| CallList (i : ListHostedZonesByNameInput)
| CallChange (i : ChangeResourceRecordSetsInput).

Record Run := {
  calls : list APICall;
  result : outcome (option error)
}.

Definition isLabel (t : string) : bool :=
  negb (String.eqb t EmptyString) && negb (String.eqb t "*").

(** [splitHostname]: host part, registered domain, error. *)
Definition splitHostname (hostname : string) : string * string * option error :=
  let s := Go.Split hostname "."%char in
  let h := filter isLabel s in
  if Nat.ltb (length h) 2 then
    (EmptyString, EmptyString, Some (hostname ++ " is basically a great big TLD"))
  else
    (Go.Join (Go.take (length h - 2) h) ".",
     Go.Join (Go.drop (length h - 2) h) ".",
     None).

(** [findHostedZoneID]: the zone id, the error, and the request made. *)
Definition findHostedZoneID (api : API) (hostname : string)
  : string * option error * list APICall :=
  let hostedZoneID := EmptyString in
  let '(_, domain, err) := splitHostname hostname in
  match err with
  | Some e => (hostedZoneID, Some e, [])
  | None =>
      let lhzbnInput := {| DNSName := domain; MaxItems := "1" |} in
      let '(zones, err) := ListHostedZonesByName api lhzbnInput in
      match err with
      | Some e => (hostedZoneID, Some e, [CallList lhzbnInput])
      | None =>
          match zones with
          | [z] => (Id z, None, [CallList lhzbnInput])
          | _ => (hostedZoneID,
                  Some ("Failed to find HostedZoneID for " ++ domain),
                  [CallList lhzbnInput])
          end
      end
  end.

(** The domain after "Strip leading wildcard for text record if present". *)
Definition stripWildcard (domain : string) : outcome string :=
  match Go.slice_to domain 2 with
  | Returned p =>
      if String.eqb p "*." then Returned (Go.slice_from domain 2)
      else Returned domain
  | Panicked m => Panicked m
  | Exited n => Exited n
  end.

Definition createChangeRecordSetInput (hostedZoneID domain token action : string)
  : outcome (ChangeResourceRecordSetsInput * option error) :=
  match stripWildcard domain with
  | Returned domain =>
      Returned
        ({| ChangeBatch_ :=
              {| Changes :=
                   [ {| Action := action;
                        ResourceRecordSet_ :=
                          {| Name := "_acme-challenge." ++ domain;
                             ResourceRecords := [ {| Value := Go.Quote token |} ];
                             TTL := 20;
                             Type_ := "TXT" |} |} ];
                 Comment := "Text record for letsencrypt" |};
            HostedZoneId := hostedZoneID |},
         None)
  | Panicked m => Panicked m
  | Exited n => Exited n
  end.

Definition AddTextRecord (c : Route53) (domain token : string) : Run :=
  let '(hostedZoneID, err, made) := findHostedZoneID (r53 c) domain in
  match err with
  | Some e => {| calls := made; result := Returned (Some e) |}
  | None =>
      match createChangeRecordSetInput hostedZoneID domain token "UPSERT" with
      | Returned (input, Some e) =>
          {| calls := made; result := Returned (Some e) |}
      | Returned (input, None) =>
          {| calls := made ++ [CallChange input];
             result := Returned (ChangeResourceRecordSets (r53 c) input) |}
      | Panicked m => {| calls := made; result := Panicked m |}
      | Exited n => {| calls := made; result := Exited n |}
      end
  end.

Definition RemoveTextRecord (c : Route53) (domain token : string) : Run :=
  let '(hostedZoneID, err, made) := findHostedZoneID (r53 c) domain in
  match err with
  | Some e => {| calls := made; result := Returned (Some e) |}
  | None =>
      match createChangeRecordSetInput hostedZoneID domain token "DELETE" with
      | Returned (input, Some e) =>
          {| calls := made; result := Returned (Some e) |}
      | Returned (input, None) =>
          {| calls := made ++ [CallChange input];
             result := Returned (ChangeResourceRecordSets (r53 c) input) |}
      | Panicked m => {| calls := made; result := Panicked m |}
      | Exited n => {| calls := made; result := Exited n |}
      end
  end.






(** The operation came back to its caller. *)
Definition returns (r : Run) : Prop := exists err, result r = Returned err.

End Route53.

(** ** secrets.go: the certificate store on AWS Secrets Manager *)

Module Secrets.

(** What the Secrets Manager service holds: secret name and secret string. *)
Definition SecretsManager := list (string * string).

(** [type ASMCertStore struct { asm *secretsmanager.SecretsManager }] *)
Record ASMCertStore := { asm : SecretsManager }.

(** [strings.Replace(domain, "*", "_", 1)] *)
Fixpoint replaceStar (domain : string) : string :=
  match domain with
  | EmptyString => EmptyString
  | String c r =>
      if Ascii.eqb c "*"%char then String "_"%char r
      else String c (replaceStar r)
  end.

(** The names [addSecret] files a domain's key and certificate under. *)
Definition keyName (domain : string) : string :=
  "ssl_" ++ replaceStar domain ++ ".key".
Definition certName (domain : string) : string :=
  "ssl_" ++ replaceStar domain ++ ".crt".

Definition holds (c : ASMCertStore) (name : string) : bool :=
  existsb (fun kv => String.eqb (fst kv) name) (asm c).

(** Nothing has been stored for the domain. *)
Definition nothingStored (c : ASMCertStore) (domain : string) : Prop :=
  holds c (keyName domain) = false /\ holds c (certName domain) = false.

(** [func (c *ASMCertStore) Retrieve(domain string) (string, string, error)] *)
Definition Retrieve (c : ASMCertStore) (domain : string)
  : string * string * option error :=
  ("i_am", "fake", None).

End Secrets.

(** ** The client and its account request: the protocol session *)

Module Client.

(** *** Data *)

(** [*ecdsa.PrivateKey] and [*rsa.PrivateKey], as far as the package looks
    into them: not at all. *)
Record PrivateKey := { Curve : string; X : Z; Y : Z; D : Z }.
Record RSAKey := { N : Z; E : Z; RD : Z }.

(** Modelled from the spec: the type [Directory] (its declaration is not
    among the files modelled here), a "mapping of logical operation names (newNonce,
    newAccount, newOrder, revokeCert, keyChange) to absolute URLs". *)
Record Directory := {
  NewNonce : string;
  NewAccount : string;
  NewOrder : string;
  RevokeCert : string;
  KeyChange : string
}.

Definition noDirectory : Directory :=
  {| NewNonce := EmptyString; NewAccount := EmptyString;
     NewOrder := EmptyString; RevokeCert := EmptyString;
     KeyChange := EmptyString |}.

(** Modelled from the spec: the type [Challenge] (its declaration is not
    among the files modelled here), "a (type, token, URL, status) tuple
    offered by an authorization"; [FetchOrRenewCert] reads [Type], [Token]
    and [URL]. *)
Record Challenge := {
  Type_ : string;
  Token : string;
  URL : string;
  Status : string
}.

(** [var challenge Challenge]: the zero value. *)
Definition zeroChallenge : Challenge :=
  {| Type_ := EmptyString; Token := EmptyString;
     URL := EmptyString; Status := EmptyString |}.

(** The results of [FetchChallenges] and [CertApply], as far as
    [FetchOrRenewCert] reads them. *)
Record ChallengeResponse := { Challenges : list Challenge }.
Record CertApplyResponse := { Authorizations : list string }.

(** [type NewAccount struct] (the name [NewAccount] is the directory's
    field here). *)
Record NewAccountClaim := {
  TermsOfServiceAgreed : bool;
  Contact : list string
}.

(** The [claimset interface{}] handed to [makeRequest]. *)
Inductive Claimset :=
| NilClaims
| NewAccountClaims (a : NewAccountClaim)
| JSONClaims (json : string).

(** A call made on a [DNSModifier], with the error it returned. *)
Inductive DNSCall :=
| AddText (domain token : string) (err : option error)
| RemoveText (domain token : string) (err : option error).

(** [type DNSModifier interface]: an implementation answers a call knowing
    the calls made before it, oldest first. *)
Record DNSModifier := {
  AddTextRecord : list DNSCall -> string -> string -> option error;
  RemoveTextRecord : list DNSCall -> string -> string -> option error
}.

(** [type CertStoreRetriever interface] *)
Record CertStoreRetriever := {
  Store : string -> string -> string -> option error;
  Retrieve : string -> string * string * option error
}.

(** [type Logger interface], with the two loggers of the package. *)
Inductive Logger := StdoutLogger | StderrLogger.

(** [type ClientOpts struct]; the [HTTPClient] field is never read. *)
Record ClientOpts := {
  opt_AccountKey : option PrivateKey;
  opt_CertKey : option RSAKey;
  opt_ContactEmails : list string;
  opt_Logger : option Logger
}.

(** [type Client struct] *)
Record Client := {
  Nonce : string;
  KID : string;
  Key : option PrivateKey;
  Directory_ : Directory;
  DNS : option DNSModifier;
  CertsManager : option CertStoreRetriever;
  OrderURL : string;
  ContactEmails : list string;
  Finalize : string;
  CertKey : option RSAKey;
  Logger_ : option Logger
}.

Definition set_Nonce (c : Client) (n : string) : Client :=
  {| Nonce := n; KID := KID c; Key := Key c; Directory_ := Directory_ c;
     DNS := DNS c; CertsManager := CertsManager c; OrderURL := OrderURL c;
     ContactEmails := ContactEmails c; Finalize := Finalize c;
     CertKey := CertKey c; Logger_ := Logger_ c |}.

Definition set_KID (c : Client) (k : string) : Client :=
  {| Nonce := Nonce c; KID := k; Key := Key c; Directory_ := Directory_ c;
     DNS := DNS c; CertsManager := CertsManager c; OrderURL := OrderURL c;
     ContactEmails := ContactEmails c; Finalize := Finalize c;
     CertKey := CertKey c; Logger_ := Logger_ c |}.

Definition set_Directory (c : Client) (d : Directory) : Client :=
  {| Nonce := Nonce c; KID := KID c; Key := Key c; Directory_ := d;
     DNS := DNS c; CertsManager := CertsManager c; OrderURL := OrderURL c;
     ContactEmails := ContactEmails c; Finalize := Finalize c;
     CertKey := CertKey c; Logger_ := Logger_ c |}.

Definition set_DNS (c : Client) (d : option DNSModifier) : Client :=
  {| Nonce := Nonce c; KID := KID c; Key := Key c; Directory_ := Directory_ c;
     DNS := d; CertsManager := CertsManager c; OrderURL := OrderURL c;
     ContactEmails := ContactEmails c; Finalize := Finalize c;
     CertKey := CertKey c; Logger_ := Logger_ c |}.

Definition set_CertsManager (c : Client) (m : option CertStoreRetriever) : Client :=
  {| Nonce := Nonce c; KID := KID c; Key := Key c; Directory_ := Directory_ c;
     DNS := DNS c; CertsManager := m; OrderURL := OrderURL c;
     ContactEmails := ContactEmails c; Finalize := Finalize c;
     CertKey := CertKey c; Logger_ := Logger_ c |}.

Definition set_Logger (c : Client) (l : option Logger) : Client :=
  {| Nonce := Nonce c; KID := KID c; Key := Key c; Directory_ := Directory_ c;
     DNS := DNS c; CertsManager := CertsManager c; OrderURL := OrderURL c;
     ContactEmails := ContactEmails c; Finalize := Finalize c;
     CertKey := CertKey c; Logger_ := l |}.

(** *** The signed request and the HTTP exchange *)

(** Who signs: the account's public key, or its key id. *)
Inductive KeyRef :=
| EmbeddedJWK (curve : string) (x y : Z)
| KeyID (kid : string).

Record Protected := {
  alg : string;
  nonce : string;
  url : string;
  keyRef : KeyRef
}.

(** The envelope [{"protected","payload","signature"}]. The payload is the
    claim set ([None] is the empty payload of a POST-as-GET) and the
    signature is kept as what was signed, with which key. *)
Record Envelope := {
  protected : Protected;
  payload : option Claimset;
  signedWith : PrivateKey
}.

(** [*http.Request] as [makeRequest] builds it. *)
Record Request := {
  Method : string;
  Target : string;
  ContentType : string;
  Body : Envelope
}.

(** [http.Header]: [Get] gives the first value under the key, or the empty
    string. *)
Definition Header := list (string * string).

Fixpoint Header_lookup (h : Header) (key : string) : option string :=
  match h with
  | [] => None
  | (k, v) :: r => if String.eqb k key then Some v else Header_lookup r key
  end.

Definition Header_Get (h : Header) (key : string) : string :=
  match Header_lookup h key with
  | Some v => v
  | None => EmptyString
  end.

(** What [http.DefaultClient.Do] followed by [ioutil.ReadAll] can bring. *)
Inductive RoundTrip :=
| DoFails (e : error)
    (* Do returns an error: there is no response *)
| BodyFails (status : Z) (h : Header) (read : string) (e : error)
    (* the response arrived, reading its body fails *)
| Responds (status : Z) (h : Header) (body : string).
    (* the response arrived and its body was read *)

(** [func prependContacts(c []string) []string]: each entry of [c] is
    overwritten in place with the value that goes into the result. *)
Section Contacts.

(** [strings.TrimSpace] *)
Variable trimSpace : string -> string.

Definition mailto (s : string) : string :=
  if negb (Go.HasPrefix s "mailto:") then "mailto:" ++ trimSpace s else s.

Fixpoint prependContacts (c : list string) : list string :=
  match c with
  | [] => []
  | ci :: rest => mailto ci :: prependContacts rest
  end.

End Contacts.

(** *** What lies outside the files modelled here

    Go's libraries, the network, and the functions of the package defined
    in other files, taken as parameters. A method of the client that is a
    parameter receives the client and the requests sent so far and gives
    back both. *)

Definition Sent := list Request.

Record Env := {
  (* strings, crypto/sha256, encoding/base64, go-jose, net/http, crypto/ecdsa *)
  TrimSpace : string -> string;
  sha256_Sum : string -> string;
  RawURLEncoding : string -> string;
  Thumbprint : option PrivateKey -> string * option error;
  NewRequest_err : string -> option error;
  GenerateKey : PrivateKey * option error;
  (* the network: the answer to a request, knowing the earlier ones *)
  server : Sent -> Request -> RoundTrip;
  http_Get : string -> string * option error;
  (* the nonce and directory functions, the order and challenge methods *)
  GetNonce : Sent -> string -> string * option error;
  Parse : string -> Directory * option error;
  CertApply :
    Client -> Sent -> list string -> CertApplyResponse * option error * Client * Sent;
  FetchChallenges :
    Client -> Sent -> string -> ChallengeResponse * option error * Client * Sent;
  ChallengeReady :
    Client -> Sent -> string -> option error * Client * Sent;
  PollForStatus :
    Client -> Sent -> string -> option error * Client * Sent
}.

Section Session.

Variable env : Env.

(** Modelled from the spec: [Client.JWSEncodeJSON] (its definition is not
    among the files modelled here). "A protected header containing the signing
    algorithm, the consumed nonce, the target URL, and either the account's
    public key (before an account exists) or its Key ID (after); a
    base64url-encoded payload (empty string for GET-as-POST); and a
    signature [...] computed with the account private key"; "signing fails
    only on malformed key material". *)
Definition JWSEncodeJSON (c : Client) (claimset : Claimset) (url : string)
    (postAsGet : bool) : error + Envelope :=
  match Key c with
  | None => inl "malformed key material"
  | Some k =>
      inr {| protected :=
               {| alg := "ES256";
                  nonce := Nonce c;
                  url := url;
                  keyRef := if String.eqb (KID c) EmptyString
                            then EmbeddedJWK (Curve k) (X k) (Y k)
                            else KeyID (KID c) |};
             payload := if postAsGet then None else Some claimset;
             signedWith := k |}
  end.

(** [func (c *Client) makeRequest(ctx, claimset, url, postAsGet) ([]byte, error)]:
    the body, the error, the client and the requests sent afterwards. *)
Definition makeRequest (c : Client) (sent : Sent) (claimset : Claimset)
    (url : string) (postAsGet : bool) : string * option error * Client * Sent :=
  match JWSEncodeJSON c claimset url postAsGet with
  | inl err => (EmptyString, Some err, c, sent)
  | inr token =>
      match NewRequest_err env url with
      | Some err => (EmptyString, Some err, c, sent)
      | None =>
          let req := {| Method := "POST"; Target := url;
                        ContentType := "application/jose+json";
                        Body := token |} in
          match server env sent req with
          | DoFails err => (EmptyString, Some err, c, (sent ++ [req])%list)
          | BodyFails _ _ b err => (b, Some err, c, (sent ++ [req])%list)
          | Responds _ h b =>
              let c := set_Nonce c (Header_Get h "Replay-Nonce") in
              let c := if String.eqb (KID c) EmptyString
                       then set_KID c (Header_Get h "Location")
                       else c in
              (b, None, c, (sent ++ [req])%list)
          end
      end
  end.

(** [func queryDirectory(url string) (Directory, error)] *)
Definition queryDirectory (url : string) : Directory * option error :=
  match http_Get env url with
  | (_, Some err) => (noDirectory, Some err)
  | (dirJSON, None) => Parse env dirJSON
  end.

(** [func JWKThumbprint(key *ecdsa.PrivateKey, hash crypto.Hash) ([]byte, error)] *)
Definition JWKThumbprint (key : option PrivateKey) : string * option error :=
  Thumbprint env key.

(** [func (c *Client) acmeAuthString(token string) (string, error)] *)
Definition acmeAuthString (c : Client) (token : string) : string * option error :=
  match JWKThumbprint (Key c) with
  | (thumb, Some err) => (thumb, Some err)
  | (thumb, None) => (token ++ "." ++ RawURLEncoding env thumb, None)
  end.

(** [func (c *Client) AcmeAuthHash(token string) (string, error)] *)
Definition AcmeAuthHash (c : Client) (token : string) : string * option error :=
  match acmeAuthString c token with
  | (authString, Some err) => (authString, Some err)
  | (authString, None) => (RawURLEncoding env (sha256_Sum env authString), None)
  end.

End Session.

(** *** The issuance run

    [NewClient] and [FetchOrRenewCert] work on the client, send requests
    and call the DNS collaborator; a run threads these three through and
    ends as an [outcome]. *)

Record St := {
  client : Client;
  sent : Sent;
  dns : list DNSCall
}.

Definition M (A : Type) : Type := St -> outcome A * St.

Definition ret {A} (a : A) : M A := fun s => (Returned a, s).

Definition bind {A B} (m : M A) (k : A -> M B) : M B := fun s =>
  match m s with
  | (Returned a, s') => k a s'
  | (Panicked msg, s') => (Panicked msg, s')
  | (Exited n, s') => (Exited n, s')
  end.

Notation "x <- m ;; k" := (bind m (fun x => k))
  (at level 61, m at next level, right associativity).
Notation "m ;;; k" := (bind m (fun _ => k))
  (at level 61, right associativity).

(** [log.Fatal(err)]: the process ends with status 1. *)
Definition log_Fatal {A} : M A := fun s => (Exited 1%Z, s).

Definition panic {A} (msg : string) : M A := fun s => (Panicked msg, s).

(** [defer d] followed by [body]: [d] runs when [body] returns or panics,
    not when the process ends inside [body]. *)
Definition defer {A} (d : M unit) (body : M A) : M A := fun s =>
  match body s with
  | (Exited n, s') => (Exited n, s')
  | (Returned a, s') =>
      match d s' with
      | (Returned _, s'') => (Returned a, s'')
      | (Panicked msg, s'') => (Panicked msg, s'')
      | (Exited n, s'') => (Exited n, s'')
      end
  | (Panicked msg, s') =>
      match d s' with
      | (Returned _, s'') => (Panicked msg, s'')
      | (Panicked msg', s'') => (Panicked msg', s'')
      | (Exited n, s'') => (Exited n, s'')
      end
  end.

Definition getClient : M Client := fun s => (Returned (client s), s).

Definition putClient (c : Client) : M unit := fun s =>
  (Returned tt, {| client := c; sent := sent s; dns := dns s |}).

(** A method of the client that sends requests. *)
Definition method {A} (f : Client -> Sent -> A * Client * Sent) : M A := fun s =>
  let '(a, c, sn) := f (client s) (sent s) in
  (Returned a, {| client := c; sent := sn; dns := dns s |}).

(** [c.DNS.AddTextRecord(domain, token)]; a nil [DNS] is a nil dereference. *)
Definition DNS_AddTextRecord (domain token : string) : M (option error) := fun s =>
  match DNS (client s) with
  | None => (Panicked "nil pointer dereference", s)
  | Some d =>
      let err := AddTextRecord d (dns s) domain token in
      (Returned err,
       {| client := client s; sent := sent s;
          dns := (dns s ++ [AddText domain token err])%list |})
  end.

Definition DNS_RemoveTextRecord (domain token : string) : M (option error) := fun s =>
  match DNS (client s) with
  | None => (Panicked "nil pointer dereference", s)
  | Some d =>
      let err := RemoveTextRecord d (dns s) domain token in
      (Returned err,
       {| client := client s; sent := sent s;
          dns := (dns s ++ [RemoveText domain token err])%list |})
  end.

(** [authorizations[0]] *)
Definition index0 (l : list string) : M string :=
  match l with
  | x :: _ => ret x
  | [] => panic "index out of range [0] with length 0"
  end.

(** The loop of [FetchOrRenewCert] that picks the first dns-01 challenge;
    [challenge] stays as it was when there is none. *)
Fixpoint selectChallenge (challenge : Challenge) (cs : list Challenge) : Challenge :=
  match cs with
  | [] => challenge
  | c :: rest =>
      if String.eqb (Type_ c) "dns-01" then c
      else selectChallenge challenge rest
  end.

Section Flow.

Variable env : Env.

(** [func (c *Client) newAccount(ctx, contactEmails []string) error] *)
Definition newAccount (contactEmails : list string) : M (option error) :=
  c <- getClient ;;
  let newAcct := {| Contact := contactEmails; TermsOfServiceAgreed := true |} in
  r <- method (fun c sn =>
         let '(res, err, c, sn) :=
           makeRequest env c sn (NewAccountClaims newAcct)
                       (NewAccount (Directory_ c)) false in
         ((res, err), c, sn)) ;;
  ret (snd r).

(** [func NewClient(dirURL, csr, dm, opts) (Client, error)] *)
Definition NewClient (dirURL : string) (csr : option CertStoreRetriever)
    (dm : option DNSModifier) (opts : ClientOpts)
  : outcome (Client * option error) :=
  let contacts := prependContacts (TrimSpace env) (opt_ContactEmails opts) in
  let c := {| Nonce := EmptyString; KID := EmptyString;
              Key := opt_AccountKey opts;
              Directory_ := noDirectory;
              DNS := None; CertsManager := None;
              OrderURL := EmptyString;
              ContactEmails := contacts;
              Finalize := EmptyString;
              CertKey := opt_CertKey opts;
              Logger_ := None |} in
  match queryDirectory env dirURL with
  | (_, Some err) => Returned (c, Some err)
  | (directory, None) =>
      let c := set_Directory c directory in
      let generated :=
        match opt_AccountKey opts with
        | None =>
            match GenerateKey env with
            | (_, Some err) => Exited 1%Z
            | (key, None) =>
                (* opts.AccountKey = key *)
                Returned {| opt_AccountKey := Some key;
                            opt_CertKey := opt_CertKey opts;
                            opt_ContactEmails := opt_ContactEmails opts;
                            opt_Logger := opt_Logger opts |}
            end
        | Some _ => Returned opts
        end in
      match generated with
      | Exited n => Exited n
      | Panicked msg => Panicked msg
      | Returned opts =>
          let c := match opt_Logger opts with
                   | Some l => set_Logger c (Some l)
                   | None => c
                   end in
          let c := set_DNS c dm in
          let c := set_CertsManager c csr in
          Returned (c, None)
      end
  end.

(** [func (c *Client) FetchOrRenewCert(ctx, domain string) error]; the
    minute of [time.After] passes between the two DNS calls. *)
Definition FetchOrRenewCert (domain : string) : M (option error) :=
  if String.eqb domain EmptyString then ret (Some "no domain passed in")
  else
    c <- getClient ;;
    r <- method (fun c sn => (GetNonce env sn (NewNonce (Directory_ c)), c, sn)) ;;
    match r with
    | (_, Some err) => ret (Some err)
    | (nonce, None) =>
        c <- getClient ;;
        putClient (set_Nonce c nonce) ;;;
        c <- getClient ;;
        err <- newAccount (ContactEmails c) ;;
        match err with
        | Some err => ret (Some err)
        | None =>
            r <- method (fun c sn =>
                   let '(res, err, c, sn) := CertApply env c sn [domain] in
                   ((res, err), c, sn)) ;;
            match r with
            | (_, Some err) => ret (Some err)
            | (certApply, None) =>
                authz <- index0 (Authorizations certApply) ;;
                r <- method (fun c sn =>
                       let '(res, err, c, sn) := FetchChallenges env c sn authz in
                       ((res, err), c, sn)) ;;
                let challengeResponse := fst r in
                let challenge :=
                  selectChallenge zeroChallenge (Challenges challengeResponse) in
                c <- getClient ;;
                match AcmeAuthHash env c (Token challenge) with
                | (_, Some err) => log_Fatal
                | (authHash, None) =>
                    err <- DNS_AddTextRecord domain authHash ;;
                    match err with
                    | Some err => log_Fatal
                    | None =>
                        defer
                          (err <- DNS_RemoveTextRecord domain authHash ;;
                           match err with
                           | Some err => log_Fatal
                           | None => ret tt
                           end)
                          (err <- method (fun c sn =>
                                    ChallengeReady env c sn (URL challenge)) ;;
                           match err with
                           | Some err => ret (Some err)
                           | None =>
                               err <- method (fun c sn =>
                                        PollForStatus env c sn domain) ;;
                               match err with
                               | Some err => ret (Some err)
                               | None => ret None
                               end
                           end)
                    end
                end
            end
        end
    end.

End Flow.

End Client.

(** ** Sessions: several signed requests on one client *)

Module Session.
Import Client.

(** The arguments of one call of [makeRequest]. *)
Record Call := {
  claimset : Claimset;
  target : string;
  postAsGet : bool
}.

(** The calls are made one after the other on the same client. *)
Fixpoint session (env : Env) (c : Client) (sn : Sent) (calls : list Call)
  : list (string * option error) * Client * Sent :=
  match calls with
  | [] => ([], c, sn)
  | k :: rest =>
      let '(b, err, c, sn) :=
        makeRequest env c sn (claimset k) (target k) (postAsGet k) in
      let '(rs, c, sn) := session env c sn rest in
      ((b, err) :: rs, c, sn)
  end.

(** The nonce a request carries in its protected header. *)
Definition nonceOf (r : Request) : string := nonce (protected (Body r)).


(** The [Replay-Nonce] header of the response, when a response arrived and
    carries one. *)
Definition replayNonce (rt : RoundTrip) : option string :=
  match rt with
  | DoFails _ => None
  | BodyFails _ h _ _ => Header_lookup h "Replay-Nonce"
  | Responds _ h _ => Header_lookup h "Replay-Nonce"
  end.




(** After every call whose response carries a [Replay-Nonce], the client
    holds that nonce. *)
Definition nonceAlwaysReplaced : Prop :=
  forall env c sn k b err c' req v,
    makeRequest env c sn (claimset k) (target k) (postAsGet k)
      = (b, err, c', (sn ++ [req])%list) ->
    replayNonce (server env sn req) = Some v ->
    Nonce c' = v.

(** The calls [FetchOrRenewCert] added to the DNS trace. *)
Definition dnsCallsOf (env : Env) (domain : string) (s : St) : list DNSCall :=
  skipn (length (dns s)) (dns (snd (FetchOrRenewCert env domain s))).




(** The challenge response offers no dns-01 challenge. *)
Definition noDNS01 (cr : ChallengeResponse) : Prop :=
  Forall (fun ch => Type_ ch <> "dns-01") (Challenges cr).

End Session.

(** ** A small world to run the code in

    A scripted server, symbolic digests and encodings (the digest of [s]
    reads [sha256(s)]), and collaborators that answer the same to every
    call. *)

Module World.
Import Client.

Definition accountKey : PrivateKey :=
  {| Curve := "P-256"; X := 11; Y := 22; D := 33 |}.

Definition directory : Directory :=
  {| NewNonce := "https://ca.test/new-nonce";
     NewAccount := "https://ca.test/new-acct";
     NewOrder := "https://ca.test/new-order";
     RevokeCert := "https://ca.test/revoke-cert";
     KeyChange := "https://ca.test/key-change" |}.

(** The server answers the n-th request with the n-th entry of a script. *)
Definition scripted (script : list RoundTrip) : Sent -> Request -> RoundTrip :=
  fun sn _ => nth (length sn) script (DoFails "connection refused").

Definition dnsModifier (add remove : option error) : DNSModifier :=
  {| AddTextRecord := fun _ _ _ => add;
     RemoveTextRecord := fun _ _ _ => remove |}.

Definition env (script : list RoundTrip) (offered : list Challenge)
    (ready poll : option error) : Env :=
  {| TrimSpace := fun s => s;
     sha256_Sum := fun s => "sha256(" ++ s ++ ")";
     RawURLEncoding := fun s => "b64(" ++ s ++ ")";
     Thumbprint := fun k =>
       match k with
       | Some _ => ("thumbprint", None)
       | None => (EmptyString, Some "square/go-jose: unknown key type")
       end;
     NewRequest_err := fun _ => None;
     GenerateKey := (accountKey, None);
     server := scripted script;
     http_Get := fun _ => ("{}", None);
     GetNonce := fun _ _ => ("nonce-0", None);
     Parse := fun _ => (directory, None);
     CertApply := fun c sn _ =>
       ({| Authorizations := ["https://ca.test/authz/1"] |}, None, c, sn);
     FetchChallenges := fun c sn _ =>
       ({| Challenges := offered |}, None, c, sn);
     ChallengeReady := fun c sn _ => (ready, c, sn);
     PollForStatus := fun c sn _ => (poll, c, sn) |}.

Definition newClient (dm : DNSModifier) : Client :=
  {| Nonce := EmptyString; KID := EmptyString;
     Key := Some accountKey;
     Directory_ := directory;
     DNS := Some dm; CertsManager := None;
     OrderURL := EmptyString;
     ContactEmails := ["mailto:admin@example.org"];
     Finalize := EmptyString;
     CertKey := None;
     Logger_ := None |}.

Definition start (dm : DNSModifier) : St :=
  {| client := newClient dm; sent := []; dns := [] |}.

Definition created (replay location : string) : RoundTrip :=
  Responds 201 [("Replay-Nonce", replay); ("Location", location)] "{}".

Definition http01 : Challenge :=
  {| Type_ := "http-01"; Token := "abc123";
     URL := "https://ca.test/chall/1"; Status := "pending" |}.

Definition dns01 : Challenge :=
  {| Type_ := "dns-01"; Token := "abc123";
     URL := "https://ca.test/chall/2"; Status := "pending" |}.

(** A protocol error: the order is refused, with a fresh nonce. *)
Definition refused (replay : string) : RoundTrip :=
  Responds 403 [("Content-Type", "application/problem+json");
                ("Replay-Nonce", replay)]
           "{ type: urn:ietf:params:acme:error:unauthorized }".

(** The response arrives with a fresh nonce, the connection breaks while
    its body is read. *)
Definition cutOff (replay : string) : RoundTrip :=
  BodyFails 200 [("Replay-Nonce", replay)] EmptyString "unexpected EOF".

(** A client that holds the nonce [n]. *)
Definition holding (n : string) : Client :=
  set_Nonce (newClient (dnsModifier None None)) n.

Definition call (u : string) : Session.Call :=
  {| Session.claimset := JSONClaims "{}"; Session.target := u;
     Session.postAsGet := false |}.

(** A Route 53 account with one hosted zone that takes every change. *)
Definition oneZone : Route53.Route53 :=
  {| Route53.r53 :=
       {| Route53.ListHostedZonesByName :=
            fun _ => ([ {| Route53.Id := "/hostedzone/Z1" |} ], None);
          Route53.ChangeResourceRecordSets := fun _ => None |} |}.

End World.

(** ** More of the Route 53 collaborator *)

Module Zone.
Import Route53.

(** Every label of the host name is a proper one: not empty, not [*]. *)
Definition properLabels (hostname : string) : bool :=
  forallb isLabel (Go.Split hostname "."%char).

(** The same change with another action. *)
Definition withAction (action : string) (ch : Change) : Change :=
  {| Action := action; ResourceRecordSet_ := ResourceRecordSet_ ch |}.

Definition retarget (action : string) (k : APICall) : APICall :=
  match k with
  | CallList i => CallList i
  | CallChange i =>
      CallChange
        {| ChangeBatch_ :=
             {| Changes := map (withAction action) (Changes (ChangeBatch_ i));
                Comment := Comment (ChangeBatch_ i) |};
           HostedZoneId := HostedZoneId i |}
  end.

End Zone.

(** ** More of the certificate store: [Store], [addSecret], [genSecretInput] *)

Module SecretStore.

(** [type Secret struct] *)
Record Secret := { Type_ : string; Value : string }.

(** [const ( key = iota; cert )] *)
Definition key : Z := 0.
Definition cert : Z := 1.

(** [secretsmanager.UpdateSecretInput] and [secretsmanager.CreateSecretInput],
    with the fields the package sets. *)
Record UpdateSecretInput := { SecretId : string; SecretString : string }.
Record CreateSecretInput := { Name : string; CreateString : string }.

(** The requests made on the Secrets Manager, oldest first, each with the
    error it returned. *)
Inductive Call :=
| Update (i : UpdateSecretInput) (err : option error)
| Create (i : CreateSecretInput) (err : option error).

(** The service behind [*secretsmanager.SecretsManager], which answers a
    request knowing the earlier ones, and [json.Marshal] on a [Secret]. *)
Record Service := {
  UpdateSecret : list Call -> UpdateSecretInput -> option error;
  CreateSecret : list Call -> CreateSecretInput -> option error;
  Marshal : Secret -> string * option error
}.

(** The [switch secretType] of [addSecret]; another type leaves the name
    empty. *)
Definition secretName (domain : string) (secretType : Z) : string :=
  let domain := Secrets.replaceStar domain in
  if Z.eqb secretType key then "ssl_" ++ domain ++ ".key"
  else if Z.eqb secretType cert then "ssl_" ++ domain ++ ".crt"
  else EmptyString.

(** [func (c *ASMCertStore) addSecret(pem, domain string, secretType int) error]:
    the error and the requests made so far. *)
Definition addSecret (svc : Service) (made : list Call)
    (pem domain : string) (secretType : Z) : option error * list Call :=
  let secretName := secretName domain secretType in
  let secret := {| Type_ := "opaque"; Value := pem |} in
  match Marshal svc secret with
  | (_, Some err) => (Some err, made)
  | (secretBytes, None) =>
      let upd := {| SecretId := secretName; SecretString := secretBytes |} in
      match UpdateSecret svc made upd with
      | Some err =>
          let made := (made ++ [Update upd (Some err)])%list in
          let cre := {| Name := secretName; CreateString := secretBytes |} in
          match CreateSecret svc made cre with
          | Some err2 => (Some err, (made ++ [Create cre (Some err2)])%list)
          | None => (None, (made ++ [Create cre None])%list)
          end
      | None => (None, (made ++ [Update upd None])%list)
      end
  end.

(** [func (c *ASMCertStore) Store(keyPEM, certPEM, domain string) error] *)
Definition Store (svc : Service) (made : list Call)
    (keyPEM certPEM domain : string) : option error * list Call :=
  match addSecret svc made keyPEM domain key with
  | (Some err, made) => (Some err, made)
  | (None, made) => addSecret svc made certPEM domain cert
  end.

(** [strings.ReplaceAll(value, "\n", "\\n")]: a line feed becomes a
    backslash and the letter n. *)
Definition newline : ascii := ascii_of_nat 10.

Fixpoint escapeNewlines (value : string) : string :=
  match value with
  | EmptyString => EmptyString
  | String c r =>
      if Ascii.eqb c newline
      then String Go.backslash (String "n"%char (escapeNewlines r))
      else String c (escapeNewlines r)
  end.

(** [func genSecretInput(name, value string) secretsmanager.CreateSecretInput] *)
Definition genSecretInput (name value : string) : CreateSecretInput :=
  {| Name := name; CreateString := escapeNewlines value |}.

(** The byte [c] occurs in [s]. *)
Fixpoint occurs (c : ascii) (s : string) : bool :=
  match s with
  | EmptyString => false
  | String a r => Ascii.eqb a c || occurs c r
  end.

(** The secrets a Secrets Manager holds after the requests [made], when it
    held [held] before: an accepted request files the string under the
    name, in front of what was there. *)
Fixpoint holdsAfter (held : Secrets.SecretsManager) (made : list Call)
  : Secrets.SecretsManager :=
  match made with
  | [] => held
  | Update i None :: rest => holdsAfter ((SecretId i, SecretString i) :: held) rest
  | Create i None :: rest => holdsAfter ((Name i, CreateString i) :: held) rest
  | _ :: rest => holdsAfter held rest
  end.

Fixpoint lookup (held : Secrets.SecretsManager) (name : string) : option string :=
  match held with
  | [] => None
  | (k, v) :: rest => if String.eqb k name then Some v else lookup rest name
  end.

End SecretStore.

(** ** The command: contacts, domains and the loop over the domains *)

Module Cmd.
Import Client.

(** [contacts := strings.Split(contactsArg, ",")], each entry then set to
    [mailto:] and the trimmed entry. *)
Definition contactsOf (trimSpace : string -> string) (contactsArg : string)
  : list string :=
  map (fun s => "mailto:" ++ trimSpace s) (Go.Split contactsArg ","%char).

(** [domains := strings.Split(domainsArg, ",")], each entry trimmed. *)
Definition domainsOf (trimSpace : string -> string) (domainsArg : string)
  : list string :=
  map trimSpace (Go.Split domainsArg ","%char).

(** [for _, domain := range domains { client.FetchOrRenewCert(domain) }]:
    an error is reported and the loop goes on. *)
Fixpoint renewAll (env : Env) (domains : list string) : M unit :=
  match domains with
  | [] => ret tt
  | domain :: rest =>
      bind (FetchOrRenewCert env domain) (fun _ => renewAll env rest)
  end.

(** A DNS trace in which every record is published without error and
    removed without error right after. *)
Inductive paired : list DNSCall -> Prop :=
| paired_nil : paired []
| paired_cons (domain token : string) (rest : list DNSCall) :
    paired rest ->
    paired (AddText domain token None :: RemoveText domain token None :: rest).

(** The client fields that no request touches. *)
Definition sameSetup (c c' : Client) : Prop :=
  Key c' = Key c /\ Directory_ c' = Directory_ c /\ DNS c' = DNS c
  /\ CertsManager c' = CertsManager c /\ OrderURL c' = OrderURL c
  /\ ContactEmails c' = ContactEmails c /\ Finalize c' = Finalize c
  /\ CertKey c' = CertKey c /\ Logger_ c' = Logger_ c.

(** What [makeRequest] sends: a POST of a JOSE body. *)
Definition isSignedPost (r : Request) : Prop :=
  Method r = "POST" /\ ContentType r = "application/jose+json".

End Cmd.

(** ** A small Secrets Manager to run the store on

    It accepts an update of a secret that is on file and the creation of
    one that is not, and refuses the others; a secret is marshalled
    symbolically. *)

Module Vault.
Import SecretStore.

Definition onFile (made : list Call) (name : string) : bool :=
  match lookup (holdsAfter [] made) name with
  | Some _ => true
  | None => false
  end.

Definition service : Service :=
  {| UpdateSecret := fun made i =>
       if onFile made (SecretId i) then None
       else Some "ResourceNotFoundException";
     CreateSecret := fun made i =>
       if onFile made (Name i) then Some "ResourceExistsException"
       else None;
     Marshal := fun s => ("json(" ++ Type_ s ++ "," ++ Value s ++ ")", None) |}.

(** A Secrets Manager that refuses everything. *)
Definition closed : Service :=
  {| UpdateSecret := fun _ _ => Some "AccessDeniedException";
     CreateSecret := fun _ _ => Some "AccessDeniedException";
     Marshal := Marshal service |}.

End Vault.

(** * Properties *)

(** ** Contacts *)

Section ContactsFacts.
Import Client.

Variable trimSpace : string -> string.

Lemma mailto_prefixed (s : string) :
  Go.HasPrefix (mailto trimSpace s) "mailto:" = true.
Proof.
  unfold mailto.
  destruct (Go.HasPrefix s "mailto:") eqn:Hp; simpl.
  - exact Hp.
  - unfold Go.HasPrefix. simpl.
    repeat (destruct (ascii_dec _ _) as [_ | Hne]; [| now elim Hne]).
    now destruct (trimSpace s).
Qed.

Lemma mailto_fixed (s : string) :
  Go.HasPrefix s "mailto:" = true -> mailto trimSpace s = s.
Proof.
  intros Hp. unfold mailto. now rewrite Hp.
Qed.

(** C9. Every entry of the list [prependContacts] returns begins with
    "mailto:", and applying [prependContacts] to its own result gives that
    result back. *)
Theorem prependContacts_mailto_idempotent (c : list string) :
  Forall (fun s => Go.HasPrefix s "mailto:" = true)
         (prependContacts trimSpace c)
  /\ prependContacts trimSpace (prependContacts trimSpace c)
     = prependContacts trimSpace c.
Proof.
  induction c as [| ci rest [IHall IHidem]]; simpl.
  - split; [constructor | reflexivity].
  - split.
    + constructor; [apply mailto_prefixed | exact IHall].
    + rewrite IHidem. f_equal.
      apply mailto_fixed, mailto_prefixed.
Qed.

End ContactsFacts.

(** ** The certificate store *)

(** C7. Whatever the store holds, and so also when nothing was stored for
    the domain, [Retrieve] returns the pair "i_am", "fake" with a nil
    error: not the two empty strings its interface asks for. *)
Theorem Retrieve_returns_placeholder (c : Secrets.ASMCertStore) (domain : string) :
  Secrets.nothingStored c domain ->
  Secrets.Retrieve c domain = ("i_am", "fake", None)
  /\ Secrets.Retrieve c domain <> (EmptyString, EmptyString, None).
Proof.
  intros _. split; [reflexivity | discriminate].
Qed.

Lemma Retrieve_returns_placeholder_witness :
  Secrets.nothingStored {| Secrets.asm := [] |} "example.org"
  /\ Secrets.Retrieve {| Secrets.asm := [] |} "example.org" = ("i_am", "fake", None)
  /\ Secrets.Retrieve {| Secrets.asm := [] |} "example.org"
     <> (EmptyString, EmptyString, None).
Proof.
  assert (H : Secrets.nothingStored {| Secrets.asm := [] |} "example.org")
    by (split; reflexivity).
  split; [exact H |].
  exact (Retrieve_returns_placeholder {| Secrets.asm := [] |} "example.org" H).
Defined.

(** ** Key authorization *)

Section KeyAuthorization.
Import Client.

Variable env : Env.




End KeyAuthorization.


(** ** Construction of the client *)

(** C6. With no account key in the options and a directory that was
    fetched, [NewClient] generates a key and returns a client whose [Key]
    is nil: the generated key stays in the local copy of the options. *)
Theorem NewClient_drops_generated_key
    (env : Client.Env) (dirURL : string)
    (csr : option Client.CertStoreRetriever) (dm : option Client.DNSModifier)
    (opts : Client.ClientOpts) (dir : Client.Directory) (key : Client.PrivateKey) :
  Client.opt_AccountKey opts = None ->
  Client.queryDirectory env dirURL = (dir, None) ->
  Client.GenerateKey env = (key, None) ->
  exists c, Client.NewClient env dirURL csr dm opts = Returned (c, None)
            /\ Client.Key c = None.
Proof.
  intros Hk Hd Hg. unfold Client.NewClient.
  rewrite Hd, Hk, Hg. simpl.
  eexists. split; [reflexivity |].
  destruct (Client.opt_Logger opts); reflexivity.
Qed.

Lemma NewClient_drops_generated_key_witness :
  let e := World.env [] [] None None in
  let opts := {| Client.opt_AccountKey := None; Client.opt_CertKey := None;
                 Client.opt_ContactEmails := ["admin@example.org"];
                 Client.opt_Logger := None |} in
  exists c, Client.NewClient e "https://ca.test/dir" None None opts
              = Returned (c, None)
            /\ Client.Key c = None.
Proof.
  intros e opts.
  exact (NewClient_drops_generated_key e "https://ca.test/dir" None None opts
           World.directory World.accountKey eq_refl eq_refl eq_refl).
Defined.

(** ** The Route 53 collaborator *)

Section Route53Facts.
Import Route53.

Lemma Split_totalLen (s : string) (sep : ascii) :
  Go.totalLen (Go.Split s sep) <= String.length s.
Proof.
  induction s as [| c r IH]; simpl.
  - lia.
  - destruct (Ascii.eqb c sep).
    + simpl. lia.
    + destruct (Go.Split r sep) as [| h t]; simpl in *; lia.
Qed.

Lemma labels_totalLen (l : list string) :
  length (filter isLabel l) <= Go.totalLen l.
Proof.
  induction l as [| s r IH]; simpl.
  - lia.
  - unfold isLabel at 1.
    destruct s as [| a s']; simpl.
    + lia.
    + destruct (negb _); simpl; lia.
Qed.

Lemma splitHostname_ok_labels (hostname h d : string) :
  splitHostname hostname = (h, d, None) ->
  2 <= length (filter isLabel (Go.Split hostname "."%char)).
Proof.
  unfold splitHostname.
  destruct (Nat.ltb _ 2) eqn:Hlt; [discriminate |].
  intros _. apply Nat.ltb_ge in Hlt. exact Hlt.
Qed.

Lemma splitHostname_ok_len (hostname h d : string) :
  splitHostname hostname = (h, d, None) -> 2 <= Go.len hostname.
Proof.
  intros Hs. apply splitHostname_ok_labels in Hs.
  pose proof (labels_totalLen (Go.Split hostname "."%char)).
  pose proof (Split_totalLen hostname "."%char).
  unfold Go.len. lia.
Qed.

Lemma stripWildcard_short (domain : string) :
  Go.len domain < 2 ->
  stripWildcard domain = Panicked "slice bounds out of range".
Proof.
  intros Hl. unfold stripWildcard, Go.slice_to.
  apply Nat.ltb_lt in Hl. now rewrite Hl.
Qed.

Lemma stripWildcard_long (domain : string) :
  2 <= Go.len domain -> exists name, stripWildcard domain = Returned name.
Proof.
  intros Hl. unfold stripWildcard, Go.slice_to.
  apply Nat.ltb_ge in Hl. rewrite Hl.
  destruct (String.eqb _ "*."); eexists; reflexivity.
Qed.

(** What [findHostedZoneID] guarantees when it returns without error. *)
Lemma findHostedZoneID_ok (api : API) (hostname zone : string) (made : list APICall) :
  findHostedZoneID api hostname = (zone, None, made) ->
  (exists h d, splitHostname hostname = (h, d, None))
  /\ exists i, made = [CallList i].
Proof.
  unfold findHostedZoneID.
  destruct (splitHostname hostname) as [[h d] [e |]] eqn:Hs; [discriminate |].
  destruct (ListHostedZonesByName api _) as [zones [e |]]; [discriminate |].
  destruct zones as [| z [| z' zs]]; try discriminate.
  intros Heq. inversion Heq; subst. split; eauto.
Qed.

Lemma findHostedZoneID_made (api : API) (hostname : string) :
  forall k, In k (snd (findHostedZoneID api hostname)) -> exists i, k = CallList i.
Proof.
  unfold findHostedZoneID.
  destruct (splitHostname hostname) as [[h d] [e |]]; simpl.
  - intros k [].
  - destruct (ListHostedZonesByName api _) as [zones [e |]]; simpl.
    + intros k [<- | []]; eauto.
    + destruct zones as [| z [| z' zs]]; simpl; intros k [<- | []]; eauto.
Qed.






End Route53Facts.



Section SliceBounds.
Import Route53.

Lemma createChangeRecordSetInput_short (zone domain token action : string) :
  Go.len domain < 2 ->
  createChangeRecordSetInput zone domain token action
    = Panicked "slice bounds out of range".
Proof.
  intros Hl. unfold createChangeRecordSetInput.
  now rewrite (stripWildcard_short domain Hl).
Qed.

Ltac after_findHostedZoneID c domain :=
  destruct (findHostedZoneID (r53 c) domain) as [[zone [e |]] made] eqn:Hf;
  [ eexists; reflexivity
  | destruct (findHostedZoneID_ok _ _ _ _ Hf) as [[h [d Hs]] _];
    destruct (stripWildcard_long domain (splitHostname_ok_len _ _ _ Hs))
      as [name Hn];
    unfold createChangeRecordSetInput; rewrite Hn;
    eexists; reflexivity ].

Lemma AddTextRecord_returns (c : Route53) (domain token : string) :
  returns (AddTextRecord c domain token).
Proof.
  unfold returns, AddTextRecord. after_findHostedZoneID c domain.
Qed.

Lemma RemoveTextRecord_returns (c : Route53) (domain token : string) :
  returns (RemoveTextRecord c domain token).
Proof.
  unfold returns, RemoveTextRecord. after_findHostedZoneID c domain.
Qed.

(** C10. [createChangeRecordSetInput] panics on the slice [domain[:2]] for a
    domain of fewer than two bytes; when [findHostedZoneID] has returned
    without error the host name has at least two labels that are neither
    empty nor [*], hence at least two bytes; and [AddTextRecord] and
    [RemoveTextRecord], which build the input only behind that check,
    return to their caller for every domain and token. *)
Theorem slice_guarded_by_findHostedZoneID :
  (forall zone domain token action,
     Go.len domain < 2 ->
     createChangeRecordSetInput zone domain token action
       = Panicked "slice bounds out of range")
  /\ (forall api hostname zone made,
        findHostedZoneID api hostname = (zone, None, made) ->
        2 <= length (filter isLabel (Go.Split hostname "."%char))
        /\ 2 <= Go.len hostname
        /\ forall token action,
             exists i, createChangeRecordSetInput zone hostname token action
                         = Returned (i, None))
  /\ (forall c domain token,
        returns (AddTextRecord c domain token)
        /\ returns (RemoveTextRecord c domain token)).
Proof.
  split; [exact createChangeRecordSetInput_short |]. split.
  - intros api hostname zone made Hf.
    destruct (findHostedZoneID_ok _ _ _ _ Hf) as [[h [d Hs]] _].
    pose proof (splitHostname_ok_len _ _ _ Hs) as Hl.
    split; [exact (splitHostname_ok_labels _ _ _ Hs) |].
    split; [exact Hl |].
    destruct (stripWildcard_long hostname Hl) as [name Hn].
    intros token action.
    unfold createChangeRecordSetInput. rewrite Hn. eexists; reflexivity.
  - intros c domain token. split.
    + apply AddTextRecord_returns.
    + apply RemoveTextRecord_returns.
Qed.

End SliceBounds.

Lemma slice_guarded_by_findHostedZoneID_witness :
  Route53.createChangeRecordSetInput "Z1" "a" "abc123" "UPSERT"
    = Panicked "slice bounds out of range"
  /\ 2 <= Go.len "*.example.org"
  /\ Route53.returns (Route53.AddTextRecord World.oneZone "a" "abc123")
  /\ Route53.returns (Route53.RemoveTextRecord World.oneZone "*.example.org" "abc123").
Proof.
  destruct slice_guarded_by_findHostedZoneID as (Hshort & Hok & Hret).
  split; [apply Hshort; unfold Go.len; simpl; lia |].
  split.
  - refine (proj1 (proj2 (Hok (Route53.r53 World.oneZone) "*.example.org"
                             "/hostedzone/Z1" _ _))).
    reflexivity.
  - split; apply Hret.
Defined.

(** ** Nonces *)

Section Nonces.
Import Client Session.

Variable env : Env.

Lemma app_one_neq {A} (l : list A) (x : A) : l <> (l ++ [x])%list.
Proof.
  intros H. apply (f_equal (@length A)) in H.
  rewrite length_app in H. simpl in H. lia.
Qed.

(** What one call of [makeRequest] does to the client and to the requests
    sent: either nothing is sent and the client is as before, or one
    request goes out with the nonce the client holds, and the client takes
    the nonce of the answer only when the body was read. *)
Lemma makeRequest_cases (c : Client) (sn : Sent) (cl : Claimset) (u : string)
    (pag : bool) (b : string) (err : option error) (c' : Client) (sn' : Sent) :
  makeRequest env c sn cl u pag = (b, err, c', sn') ->
  (sn' = sn /\ c' = c /\ err <> None)
  \/ exists req,
       sn' = (sn ++ [req])%list
       /\ nonceOf req = Nonce c
       /\ match server env sn req with
          | DoFails e => c' = c /\ err = Some e
          | BodyFails _ _ _ e => c' = c /\ err = Some e
          | Responds _ h _ =>
              Nonce c' = Header_Get h "Replay-Nonce" /\ err = None
          end.
Proof.
  unfold makeRequest, JWSEncodeJSON.
  destruct (Key c) as [k |].
  2: { intros H; inversion H; subst. left. repeat split. discriminate. }
  destruct (NewRequest_err env u) as [e |].
  { intros H; inversion H; subst. left. repeat split. discriminate. }
  match goal with
  | |- context [server env sn ?r] => set (req := r)
  end.
  intros H. right. exists req.
  destruct (server env sn req) as [e | st h rd e | st h body];
    inversion H; subst; clear H.
  - repeat split.
  - repeat split.
  - split; [reflexivity |]. split; [reflexivity |]. split; [| reflexivity].
    destruct (String.eqb _ EmptyString); reflexivity.
Qed.

(** C2, as the code has it. When the response to a call of [makeRequest]
    arrived and its body was read, whatever its status, the client holds
    the value of the response's [Replay-Nonce] header afterwards and the
    call returns without error. *)
Theorem makeRequest_replaces_nonce
    (c : Client) (sn : Sent) (k : Call) (b : string) (err : option error)
    (c' : Client) (req : Request) (status : Z) (h : Header) (body v : string) :
  makeRequest env c sn (claimset k) (target k) (postAsGet k)
    = (b, err, c', (sn ++ [req])%list) ->
  server env sn req = Responds status h body ->
  Header_lookup h "Replay-Nonce" = Some v ->
  Nonce c' = v /\ err = None.
Proof.
  intros Hm Hs Hv.
  destruct (makeRequest_cases _ _ _ _ _ _ _ _ _ Hm)
    as [[Heq _] | (req' & Heq & _ & Hr)].
  - symmetry in Heq. now apply app_one_neq in Heq.
  - apply app_inj_tail in Heq. destruct Heq as [_ <-].
    rewrite Hs in Hr. destruct Hr as [Hn He].
    split; [| exact He].
    rewrite Hn. unfold Header_Get. now rewrite Hv.
Qed.



End Nonces.


Lemma makeRequest_replaces_nonce_witness :
  let e := World.env [World.refused "nonce-1"] [] None None in
  let r := Client.makeRequest e (World.holding "nonce-0") []
             (Client.JSONClaims "{}") "https://ca.test/new-order" false in
  Client.Nonce (snd (fst r)) = "nonce-1" /\ snd (fst (fst r)) = None.
Proof.
  intros e r.
  refine (makeRequest_replaces_nonce e (World.holding "nonce-0") []
            (World.call "https://ca.test/new-order")
            _ _ _ _ 403 _ _ "nonce-1" _ _ _).
  - reflexivity.
  - reflexivity.
  - reflexivity.
Defined.

(** C2, as stated, fails: the response carries the nonce nonce-1, reading
    its body fails, and the client still holds nonce-0. *)
Lemma nonce_kept_when_body_fails : ~ Session.nonceAlwaysReplaced.
Proof.
  intros H.
  set (e := World.env [World.cutOff "nonce-1"] [] None None).
  pose (r := Client.makeRequest e (World.holding "nonce-0") []
               (Client.JSONClaims "{}") "https://ca.test/new-order" false).
  assert (Hn : Client.Nonce (snd (fst r)) = "nonce-1").
  { refine (H e (World.holding "nonce-0") []
              (World.call "https://ca.test/new-order")
              _ _ _ _ "nonce-1" _ _).
    - reflexivity.
    - reflexivity. }
  discriminate Hn.
Qed.



(** ** The DNS record of a challenge *)

Section Challenge.
Import Client Session.

Variable env : Env.

Lemma skipn_own_length {A} (l new : list A) :
  skipn (length l) (l ++ new) = new.
Proof.
  induction l as [| x l IH]; simpl; [reflexivity | exact IH].
Qed.

Lemma selectChallenge_without_dns01 (challenge : Challenge) (cr : ChallengeResponse) :
  noDNS01 cr -> selectChallenge challenge (Challenges cr) = challenge.
Proof.
  unfold noDNS01. induction 1 as [| ch rest Hch _ IH]; simpl.
  - reflexivity.
  - apply String.eqb_neq in Hch. now rewrite Hch.
Qed.

Ltac open_run :=
  unfold newAccount;
  unfold bind, method, getClient, putClient, ret,
         DNS_AddTextRecord, index0, panic, log_Fatal;
  simpl.



(** C3. When the challenge response offers no dns-01 challenge, the run
    does not stop: it derives the key authorization of the empty token of
    the zero [Challenge] and calls [AddTextRecord] for the domain with it. *)
Theorem FetchOrRenewCert_without_dns01_publishes
    (domain : string) (s : St)
    (n b : string) (c1 : Client) (sn1 : Sent)
    (ca : CertApplyResponse) (c2 : Client) (sn2 : Sent)
    (a : string) (az : list string)
    (cr : ChallengeResponse) (e3 : option error) (c3 : Client) (sn3 : Sent)
    (thumb : string) (d : DNSModifier) :
  domain <> EmptyString ->
  GetNonce env (sent s) (NewNonce (Directory_ (client s))) = (n, None) ->
  makeRequest env (set_Nonce (client s) n) (sent s)
    (NewAccountClaims {| TermsOfServiceAgreed := true;
                         Contact := ContactEmails (client s) |})
    (NewAccount (Directory_ (client s))) false = (b, None, c1, sn1) ->
  CertApply env c1 sn1 [domain] = (ca, None, c2, sn2) ->
  Authorizations ca = a :: az ->
  FetchChallenges env c2 sn2 a = (cr, e3, c3, sn3) ->
  noDNS01 cr ->
  JWKThumbprint env (Key c3) = (thumb, None) ->
  DNS c3 = Some d ->
  exists err later,
    dnsCallsOf env domain s
    = AddText domain
        (RawURLEncoding env (sha256_Sum env ("." ++ RawURLEncoding env thumb)))
        err :: later.
Proof.
  intros Hdom Hnonce Hacct Happly Hauthz Hfetch Hnone Hthumb Hdns.
  apply String.eqb_neq in Hdom.
  unfold dnsCallsOf, FetchOrRenewCert. rewrite Hdom.
  open_run.
  rewrite Hnonce. simpl. rewrite Hacct. simpl. rewrite Happly. simpl.
  rewrite Hauthz. simpl. rewrite Hfetch. simpl.
  rewrite (selectChallenge_without_dns01 zeroChallenge cr Hnone).
  unfold AcmeAuthHash, acmeAuthString. rewrite Hthumb. simpl.
  rewrite Hdns. simpl.
  match goal with
  | |- context [AddTextRecord d ?calls ?dom ?h] =>
      exists (AddTextRecord d calls dom h)
  end.
  unfold defer, bind, method, DNS_RemoveTextRecord, ret, log_Fatal.
  destruct (AddTextRecord d _ _ _); simpl.
  { eexists. apply skipn_own_length. }
  repeat match goal with
         | |- context [ChallengeReady env ?c ?sn ?u] =>
             destruct (ChallengeReady env c sn u) as [[[e |] ?] ?]; simpl
         | |- context [PollForStatus env ?c ?sn ?u] =>
             destruct (PollForStatus env c sn u) as [[[e |] ?] ?]; simpl
         | |- context [DNS ?c] => destruct (DNS c); simpl
         | |- context [match RemoveTextRecord ?m ?calls ?dom ?h with _ => _ end] =>
             destruct (RemoveTextRecord m calls dom h); simpl
         end;
    eexists; rewrite <- ?app_assoc; apply skipn_own_length.
Qed.

End Challenge.

Lemma FetchOrRenewCert_without_dns01_publishes_witness :
  let e := World.env [World.created "nonce-1" "https://ca.test/acct/1"]
                     [World.http01] None None in
  let s := World.start (World.dnsModifier None None) in
  exists err later,
    Session.dnsCallsOf e "example.org" s
    = Client.AddText "example.org" "b64(sha256(.b64(thumbprint)))" err :: later.
Proof.
  intros e s.
  refine (FetchOrRenewCert_without_dns01_publishes e "example.org" s
            _ _ _ _ _ _ _ _ _ _ _ _ _ "thumbprint" _
            _ _ _ _ _ _ _ _ _).
  - discriminate.
  - reflexivity.
  - reflexivity.
  - reflexivity.
  - reflexivity.
  - reflexivity.
  - repeat constructor. discriminate.
  - reflexivity.
  - reflexivity.
Defined.



(** * Further properties of the code *)

(** ** Host names and hosted zones *)

Section HostNames.
Import Route53 Zone.

Lemma Split_not_nil (s : string) (sep : ascii) : Go.Split s sep <> [].
Proof.
  destruct s as [| c r]; simpl; [discriminate |].
  destruct (Ascii.eqb c sep); [discriminate |].
  destruct (Go.Split r sep); discriminate.
Qed.

(** Joining the pieces of a split string with the separator gives the
    string back. *)
Lemma Join_Split (s : string) (sep : ascii) :
  Go.Join (Go.Split s sep) (String sep EmptyString) = s.
Proof.
  unfold Go.Join. induction s as [| c r IH]; simpl.
  - reflexivity.
  - destruct (Ascii.eqb c sep) eqn:Hc.
    + apply Ascii.eqb_eq in Hc. subst c.
      pose proof (Split_not_nil r sep) as Hne.
      simpl. destruct (Go.Split r sep) as [| h t]; [contradiction |].
      now rewrite IH.
    + pose proof (Split_not_nil r sep) as Hne.
      destruct (Go.Split r sep) as [| h t]; [contradiction |].
      destruct t as [| h' t']; simpl in *; now rewrite IH.
Qed.

Lemma filter_all {A} (p : A -> bool) (l : list A) :
  forallb p l = true -> filter p l = l.
Proof.
  induction l as [| x r IH]; simpl; [reflexivity |].
  intros H. apply andb_prop in H. destruct H as [Hx Hr].
  now rewrite Hx, IH.
Qed.

Lemma append_assoc (a b c : string) : (a ++ b) ++ c = a ++ (b ++ c).
Proof.
  induction a as [| x a IH]; simpl; [reflexivity | now rewrite IH].
Qed.

Lemma concat_app (sep : string) (l1 l2 : list string) :
  l1 <> [] -> l2 <> [] ->
  String.concat sep (l1 ++ l2)
  = String.concat sep l1 ++ sep ++ String.concat sep l2.
Proof.
  intros H1 H2. induction l1 as [| x [| y l] IH]; [contradiction | |].
  - simpl. destruct l2; [contradiction | reflexivity].
  - change (String.concat sep (x :: (y :: l) ++ l2)
            = (x ++ sep ++ String.concat sep (y :: l))
              ++ sep ++ String.concat sep l2).
    change (String.concat sep (x :: (y :: l) ++ l2))
      with (x ++ sep ++ String.concat sep ((y :: l) ++ l2)).
    rewrite IH by discriminate.
    now rewrite !append_assoc.
Qed.

Lemma concat_labels_not_empty (sep : string) (l : list string) :
  l <> [] -> forallb isLabel l = true ->
  String.eqb (String.concat sep l) EmptyString = false.
Proof.
  destruct l as [| x r]; [contradiction |]. intros _ H.
  simpl in H. apply andb_prop in H. destruct H as [Hx _].
  destruct x as [| a x']; [discriminate |].
  simpl. destruct r; reflexivity.
Qed.

Lemma forallb_firstn {A} (p : A -> bool) (n : nat) (l : list A) :
  forallb p l = true -> forallb p (firstn n l) = true.
Proof.
  revert n. induction l as [| x r IH]; intros [| n] H; simpl; try reflexivity.
  simpl in H. apply andb_prop in H. destruct H as [Hx Hr].
  now rewrite Hx, IH.
Qed.

(** X1. A host name with at least two labels, all of them proper, is
    accepted by [splitHostname] and comes back from its two results: it is
    the registered domain when there are two labels, and otherwise the
    host part, a dot and the registered domain. *)
Theorem splitHostname_rejoins (hostname : string) :
  properLabels hostname = true ->
  2 <= length (Go.Split hostname "."%char) ->
  exists host domain,
    splitHostname hostname = (host, domain, None)
    /\ hostname = (if String.eqb host EmptyString then domain
                   else host ++ "." ++ domain)
    /\ (String.eqb host EmptyString = true
        <-> length (Go.Split hostname "."%char) = 2).
Proof.
  unfold properLabels. intros Hall Hlen.
  unfold splitHostname. rewrite (filter_all _ _ Hall).
  set (h := Go.Split hostname "."%char) in *.
  destruct (Nat.ltb (length h) 2) eqn:Hlt;
    [apply Nat.ltb_lt in Hlt; lia |].
  do 2 eexists. split; [reflexivity |].
  assert (Hjoin : Go.Join h "." = hostname) by apply Join_Split.
  assert (Hdrop : Go.drop (length h - 2) h <> []).
  { unfold Go.drop. intros Hnil. apply (f_equal (@length string)) in Hnil.
    rewrite length_skipn in Hnil. simpl in Hnil. lia. }
  destruct (Nat.eq_dec (length h) 2) as [H2 | H2].
  - rewrite H2. simpl. split; [symmetry; exact Hjoin |].
    split; [intros _; reflexivity | reflexivity].
  - assert (Htake : Go.take (length h - 2) h <> []).
    { unfold Go.take. intros Hnil. apply (f_equal (@length string)) in Hnil.
      rewrite length_firstn in Hnil. simpl in Hnil. lia. }
    unfold Go.Join in *.
    rewrite (concat_labels_not_empty "." _ Htake
               (forallb_firstn _ _ _ Hall)).
    split.
    + rewrite <- (concat_app "." _ _ Htake Hdrop).
      unfold Go.take, Go.drop. rewrite firstn_skipn. symmetry; exact Hjoin.
    + split; [discriminate | intros; contradiction].
Qed.

End HostNames.

Lemma splitHostname_rejoins_witness :
  Route53.splitHostname "www.example.org" = ("www", "example.org", None)
  /\ exists host domain,
       Route53.splitHostname "a.b.example.org" = (host, domain, None)
       /\ "a.b.example.org" = (if String.eqb host EmptyString then domain
                               else host ++ "." ++ domain)
       /\ (String.eqb host EmptyString = true
           <-> length (Go.Split "a.b.example.org" "."%char) = 2).
Proof.
  split; [reflexivity |].
  apply (splitHostname_rejoins "a.b.example.org").
  - reflexivity.
  - simpl. lia.
Defined.

Section Wildcards.
Import Route53 Zone.

Lemma substring_whole (s : string) : String.substring 0 (String.length s) s = s.
Proof.
  induction s as [| c r IH]; simpl; [reflexivity | now rewrite IH].
Qed.

Lemma substring_none (s : string) : String.substring 0 0 s = EmptyString.
Proof. now destruct s. Qed.

Lemma stripWildcard_wildcard (d : string) :
  stripWildcard ("*." ++ d) = Returned d.
Proof.
  unfold stripWildcard, Go.slice_to, Go.slice_from, Go.len. simpl.
  rewrite substring_none. simpl.
  rewrite Nat.sub_0_r. now rewrite substring_whole.
Qed.

Lemma stripWildcard_plain (d : string) :
  2 <= Go.len d -> Go.HasPrefix d "*." = false ->
  stripWildcard d = Returned d.
Proof.
  unfold stripWildcard, Go.slice_to, Go.HasPrefix, Go.len.
  destruct d as [| a [| b r]]; simpl; try lia. intros _.
  rewrite substring_none. unfold String.eqb.
  destruct (ascii_dec "*" a) as [<- | Ha].
  - destruct (ascii_dec "." b) as [<- | Hb].
    + destruct r; discriminate.
    + intros _. simpl.
      destruct (Ascii.eqb b ".") eqn:Hb'; [| reflexivity].
      apply Ascii.eqb_eq in Hb'. now subst b.
  - intros _. destruct (Ascii.eqb a "*") eqn:Ha'; [| reflexivity].
    apply Ascii.eqb_eq in Ha'. now subst a.
Qed.

Lemma splitHostname_wildcard (d host domain : string) :
  splitHostname d = (host, domain, None) ->
  splitHostname ("*." ++ d) = (host, domain, None).
Proof.
  unfold splitHostname. simpl.
  destruct (Nat.ltb _ 2); [discriminate | exact (fun H => H)].
Qed.

(** X2. For a domain that [splitHostname] accepts and that has no [*.] in
    front, the wildcard name [*.domain] makes [AddTextRecord] and
    [RemoveTextRecord] do exactly what they do for the domain itself: the
    same zone lookup and the same record, under the same name. *)
Theorem wildcard_shares_record (c : Route53) (d token host domain : string) :
  splitHostname d = (host, domain, None) ->
  Go.HasPrefix d "*." = false ->
  AddTextRecord c ("*." ++ d) token = AddTextRecord c d token
  /\ RemoveTextRecord c ("*." ++ d) token = RemoveTextRecord c d token.
Proof.
  intros Hs Hp.
  pose proof (splitHostname_ok_len _ _ _ Hs) as Hl.
  unfold AddTextRecord, RemoveTextRecord, findHostedZoneID,
         createChangeRecordSetInput.
  rewrite (splitHostname_wildcard _ _ _ Hs), Hs.
  rewrite stripWildcard_wildcard, (stripWildcard_plain d Hl Hp).
  split; reflexivity.
Qed.

(** X3. [RemoveTextRecord] makes the requests of [AddTextRecord] with the
    action DELETE in place of UPSERT: the same zone lookup, and a change
    for the same zone, name, type, TTL and value. *)
Theorem RemoveTextRecord_mirrors_AddTextRecord (c : Route53) (domain token : string) :
  calls (RemoveTextRecord c domain token)
  = map (retarget "DELETE") (calls (AddTextRecord c domain token)).
Proof.
  unfold RemoveTextRecord, AddTextRecord.
  pose proof (findHostedZoneID_made (r53 c) domain) as Hm.
  destruct (findHostedZoneID (r53 c) domain) as [[zone err] made].
  simpl in Hm.
  assert (Hmade : map (retarget "DELETE") made = made).
  { induction made as [| k rest IH]; simpl; [reflexivity |].
    destruct (Hm k (or_introl eq_refl)) as [i ->]. simpl.
    rewrite IH; [reflexivity |]. intros k' Hk'. apply Hm. now right. }
  destruct err as [e |]; simpl; [now rewrite Hmade |].
  unfold createChangeRecordSetInput.
  destruct (stripWildcard domain) as [name | m | n]; simpl;
    try now rewrite Hmade.
  rewrite map_app, Hmade. reflexivity.
Qed.

(** X4. What [AddTextRecord] does, case by case. With fewer than two
    proper labels it asks AWS nothing and returns the error of
    [splitHostname]. Otherwise it looks up the registered domain, asking
    for one zone; unless the lookup succeeds with exactly one zone it
    returns an error and submits nothing; with one zone it submits one
    change into that zone and returns what Route 53 answered to it. *)
Theorem AddTextRecord_cases (c : Route53) (d token : string) :
  (exists e, snd (splitHostname d) = Some e
             /\ AddTextRecord c d token
                = {| calls := []; result := Returned (Some e) |})
  \/ exists host domain,
       splitHostname d = (host, domain, None)
       /\ let lookup := {| DNSName := domain; MaxItems := "1" |} in
          (exists e,
              calls (AddTextRecord c d token) = [CallList lookup]
              /\ result (AddTextRecord c d token) = Returned (Some e)
              /\ forall z, ListHostedZonesByName (r53 c) lookup <> ([z], None))
          \/ (exists z i,
                ListHostedZonesByName (r53 c) lookup = ([z], None)
                /\ calls (AddTextRecord c d token)
                   = [CallList lookup; CallChange i]
                /\ HostedZoneId i = Id z
                /\ result (AddTextRecord c d token)
                   = Returned (ChangeResourceRecordSets (r53 c) i)).
Proof.
  unfold AddTextRecord, findHostedZoneID.
  destruct (splitHostname d) as [[host domain] [e |]] eqn:Hs; simpl.
  - left. exists e. split; reflexivity.
  - right. exists host, domain. split; [reflexivity |].
    destruct (ListHostedZonesByName (r53 c) _) as [zones [e |]] eqn:Hl; simpl.
    + left. exists e. repeat split. intros z; discriminate.
    + destruct zones as [| z [| z' zs]]; simpl.
      * left. eexists. repeat split. intros z; discriminate.
      * right.
        destruct (stripWildcard_long d (splitHostname_ok_len _ _ _ Hs))
          as [name Hn].
        unfold createChangeRecordSetInput. rewrite Hn. simpl.
        exists z. eexists. repeat split.
      * left. eexists. repeat split. intros z0; discriminate.
Qed.

End Wildcards.

Lemma wildcard_shares_record_witness :
  Route53.AddTextRecord World.oneZone "*.example.org" "abc123"
  = Route53.AddTextRecord World.oneZone "example.org" "abc123"
  /\ Route53.RemoveTextRecord World.oneZone "*.example.org" "abc123"
     = Route53.RemoveTextRecord World.oneZone "example.org" "abc123".
Proof.
  apply (wildcard_shares_record World.oneZone "example.org" "abc123"
           EmptyString "example.org"); reflexivity.
Defined.

(** ** Storing a key and a certificate *)

Section Storing.
Import SecretStore.

Variable svc : Service.

Lemma append_inj_l (a b c : string) : a ++ b = a ++ c -> b = c.
Proof.
  induction a as [| x a IH]; simpl; intros H; [exact H |].
  inversion H. now apply IH.
Qed.

(** The key and the certificate of a domain never share a name. *)
Lemma secretName_key_cert (domain : string) :
  String.eqb (secretName domain cert) (secretName domain key) = false.
Proof.
  apply String.eqb_neq. unfold secretName. simpl. intros H.
  apply (append_inj_l "ssl_") in H. apply append_inj_l in H. discriminate.
Qed.

Lemma addSecret_cases
    (made : list Call) (pem domain : string) (secretType : Z) (bytes : string) :
  Marshal svc {| Type_ := "opaque"; Value := pem |} = (bytes, None) ->
  let name := secretName domain secretType in
  let upd := {| SecretId := name; SecretString := bytes |} in
  let cre := {| Name := name; CreateString := bytes |} in
  (UpdateSecret svc made upd = None
   /\ addSecret svc made pem domain secretType
      = (None, (made ++ [Update upd None])%list))
  \/ (exists e,
        UpdateSecret svc made upd = Some e
        /\ addSecret svc made pem domain secretType
           = (None, (made ++ [Update upd (Some e); Create cre None])%list))
  \/ (exists e e2,
        UpdateSecret svc made upd = Some e
        /\ addSecret svc made pem domain secretType
           = (Some e, (made ++ [Update upd (Some e); Create cre (Some e2)])%list)).
Proof.
  intros Hm name upd cre. unfold addSecret. rewrite Hm.
  fold name. fold upd. fold cre.
  destruct (UpdateSecret svc made upd) as [e |] eqn:Hu.
  - destruct (CreateSecret svc _ cre) as [e2 |].
    + right; right. exists e, e2. split; [reflexivity |].
      now rewrite <- app_assoc.
    + right; left. exists e. split; [reflexivity |]. now rewrite <- app_assoc.
  - left. now split.
Qed.

(** X5. [addSecret], once the secret is marshalled, asks for an update
    first; it asks for the creation of the same name with the same string
    only when the update was refused; it returns nil when either was
    accepted, and when both were refused it returns the error of the
    update, not the one of the creation. *)
Theorem addSecret_update_then_create
    (made : list Call) (pem domain : string) (secretType : Z) (bytes : string) :
  Marshal svc {| Type_ := "opaque"; Value := pem |} = (bytes, None) ->
  let name := secretName domain secretType in
  let upd := {| SecretId := name; SecretString := bytes |} in
  let cre := {| Name := name; CreateString := bytes |} in
  addSecret svc made pem domain secretType
    = (None, (made ++ [Update upd None])%list)
  \/ (exists e,
        addSecret svc made pem domain secretType
          = (None, (made ++ [Update upd (Some e); Create cre None])%list))
  \/ (exists e e2,
        UpdateSecret svc made upd = Some e
        /\ addSecret svc made pem domain secretType
           = (Some e, (made ++ [Update upd (Some e); Create cre (Some e2)])%list)).
Proof.
  intros Hm name upd cre.
  destruct (addSecret_cases made pem domain secretType bytes Hm)
    as [[_ H] | [(e & _ & H) | (e & e2 & Hu & H)]].
  - now left.
  - right; left. now exists e.
  - right; right. now exists e, e2.
Qed.

Lemma holdsAfter_app (held : Secrets.SecretsManager) (a b : list Call) :
  holdsAfter held (a ++ b) = holdsAfter (holdsAfter held a) b.
Proof.
  revert held. induction a as [| k a IH]; intros held; simpl; [reflexivity |].
  destruct k as [i [e |] | i [e |]]; apply IH.
Qed.

(** After [addSecret] returned nil, the secret is on file under its name,
    and what was on file under another name still is. *)
Lemma addSecret_files
    (held : Secrets.SecretsManager) (made : list Call)
    (pem domain : string) (secretType : Z) (bytes : string) (made' : list Call) :
  Marshal svc {| Type_ := "opaque"; Value := pem |} = (bytes, None) ->
  addSecret svc made pem domain secretType = (None, made') ->
  lookup (holdsAfter held made') (secretName domain secretType) = Some bytes
  /\ forall other,
       String.eqb (secretName domain secretType) other = false ->
       lookup (holdsAfter held made') other
       = lookup (holdsAfter held made) other.
Proof.
  intros Hm Ha.
  destruct (addSecret_cases made pem domain secretType bytes Hm)
    as [[_ H] | [(e & _ & H) | (e & e2 & _ & H)]];
    rewrite H in Ha; inversion Ha; subst made'; clear Ha H;
    rewrite holdsAfter_app; simpl; rewrite String.eqb_refl;
    (split; [reflexivity | intros other Ho; now rewrite Ho]).
Qed.

(** X6. When [Store] returns nil, the Secrets Manager has accepted the
    marshalled key under [ssl_<domain>.key] and the marshalled certificate
    under [ssl_<domain>.crt] (the first [*] of the domain written [_]):
    both are on file afterwards, whatever was on file before. *)
Theorem Store_files_key_and_cert
    (held : Secrets.SecretsManager) (made made' : list Call)
    (keyPEM certPEM domain keyBytes certBytes : string) :
  Marshal svc {| Type_ := "opaque"; Value := keyPEM |} = (keyBytes, None) ->
  Marshal svc {| Type_ := "opaque"; Value := certPEM |} = (certBytes, None) ->
  Store svc made keyPEM certPEM domain = (None, made') ->
  lookup (holdsAfter held made') ("ssl_" ++ Secrets.replaceStar domain ++ ".key")
    = Some keyBytes
  /\ lookup (holdsAfter held made') ("ssl_" ++ Secrets.replaceStar domain ++ ".crt")
     = Some certBytes.
Proof.
  intros Hk Hc Hs. unfold Store in Hs.
  destruct (addSecret svc made keyPEM domain key) as [[e |] made1] eqn:H1;
    [discriminate |].
  destruct (addSecret_files held _ _ _ _ _ _ Hk H1) as [Hkey _].
  destruct (addSecret_files held _ _ _ _ _ _ Hc Hs) as [Hcert Hother].
  split.
  - change (lookup (holdsAfter held made') (secretName domain key)
            = Some keyBytes).
    rewrite (Hother _ (secretName_key_cert domain)). exact Hkey.
  - exact Hcert.
Qed.

(** X7. When the key cannot be stored, [Store] returns that error and asks
    nothing for the certificate: every request it made names the key. *)
Theorem Store_stops_at_key
    (made : list Call) (keyPEM certPEM domain : string) (e : error)
    (made' : list Call) :
  addSecret svc made keyPEM domain key = (Some e, made') ->
  Store svc made keyPEM certPEM domain = (Some e, made')
  /\ exists new,
       made' = (made ++ new)%list
       /\ Forall (fun k => match k with
                           | Update i _ => SecretId i = secretName domain key
                           | Create i _ => Name i = secretName domain key
                           end) new.
Proof.
  intros Ha. split; [unfold Store; now rewrite Ha |].
  unfold addSecret in Ha.
  destruct (Marshal svc _) as [bytes [em |]].
  - inversion Ha; subst. exists []. split; [now rewrite app_nil_r | constructor].
  - destruct (UpdateSecret svc made _) as [eu |]; [| discriminate].
    destruct (CreateSecret svc _ _) as [ec |]; [| discriminate].
    inversion Ha; subst. eexists. split; [now rewrite <- app_assoc |].
    repeat constructor.
Qed.

Lemma escapeNewlines_no_newline (value : string) :
  occurs newline (escapeNewlines value) = false.
Proof.
  induction value as [| c r IH]; simpl; [reflexivity |].
  destruct (Ascii.eqb c newline) eqn:Hc; simpl.
  - exact IH.
  - now rewrite Hc.
Qed.

(** X8. The secret string of [genSecretInput] holds no line feed, and it
    is the value itself when the value holds none. *)
Theorem genSecretInput_no_newline (name value : string) :
  occurs newline (CreateString (genSecretInput name value)) = false
  /\ (occurs newline value = false ->
      genSecretInput name value = {| Name := name; CreateString := value |}).
Proof.
  split; [apply escapeNewlines_no_newline |].
  unfold genSecretInput. intros H. f_equal.
  induction value as [| c r IH]; simpl in *; [reflexivity |].
  apply orb_false_elim in H. destruct H as [Hc Hr].
  rewrite Hc. now rewrite (IH Hr).
Qed.

End Storing.

Lemma addSecret_update_then_create_witness :
  SecretStore.addSecret Vault.service [] "KEY" "*.example.org" SecretStore.key
  = (None,
     [SecretStore.Update
        {| SecretStore.SecretId := "ssl__.example.org.key";
           SecretStore.SecretString := "json(opaque,KEY)" |}
        (Some "ResourceNotFoundException");
      SecretStore.Create
        {| SecretStore.Name := "ssl__.example.org.key";
           SecretStore.CreateString := "json(opaque,KEY)" |} None]).
Proof.
  destruct (addSecret_update_then_create Vault.service [] "KEY" "*.example.org"
              SecretStore.key "json(opaque,KEY)" eq_refl)
    as [H | [[e H] | (e & e2 & _ & H)]]; try discriminate H.
  reflexivity.
Defined.

Lemma Store_files_key_and_cert_witness :
  let made := snd (SecretStore.Store Vault.service [] "KEY" "CERT" "*.example.org") in
  SecretStore.lookup (SecretStore.holdsAfter [] made) "ssl__.example.org.key"
    = Some "json(opaque,KEY)"
  /\ SecretStore.lookup (SecretStore.holdsAfter [] made) "ssl__.example.org.crt"
     = Some "json(opaque,CERT)".
Proof.
  intros made.
  exact (Store_files_key_and_cert Vault.service [] [] made
           "KEY" "CERT" "*.example.org" "json(opaque,KEY)" "json(opaque,CERT)"
           eq_refl eq_refl eq_refl).
Defined.

Lemma Store_stops_at_key_witness :
  fst (SecretStore.Store Vault.closed [] "KEY" "CERT" "example.org")
  = Some "AccessDeniedException"
  /\ length (snd (SecretStore.Store Vault.closed [] "KEY" "CERT" "example.org")) = 2.
Proof.
  destruct (Store_stops_at_key Vault.closed [] "KEY" "CERT" "example.org"
              "AccessDeniedException" _ eq_refl) as [H _].
  rewrite H. split; reflexivity.
Defined.

(** ** One request, and a session of requests *)

Section Requests.
Import Client Session Cmd.

Variable env : Env.

Lemma sameSetup_refl (c : Client) : sameSetup c c.
Proof. repeat split. Qed.

Lemma sameSetup_trans (a b c : Client) :
  sameSetup a b -> sameSetup b c -> sameSetup a c.
Proof.
  unfold sameSetup. intros H1 H2.
  repeat match goal with H : _ /\ _ |- _ => destruct H end.
  repeat split; congruence.
Qed.


Lemma makeRequest_frame
    (c : Client) (sn : Sent) (cl : Claimset) (u : string) (pag : bool)
    (b : string) (err : option error) (c' : Client) (sn' : Sent) :
  makeRequest env c sn cl u pag = (b, err, c', sn') ->
  sameSetup c c'
  /\ (KID c <> EmptyString -> KID c' = KID c)
  /\ exists new, sn' = (sn ++ new)%list /\ length new <= 1
                 /\ Forall isSignedPost new.
Proof.
  unfold makeRequest.
  destruct (JWSEncodeJSON c cl u pag) as [e | token].
  { intros H; inversion H; subst. split; [apply sameSetup_refl |].
    split; [reflexivity |]. exists []. rewrite app_nil_r. repeat split; auto. }
  destruct (NewRequest_err env u) as [e |].
  { intros H; inversion H; subst. split; [apply sameSetup_refl |].
    split; [reflexivity |]. exists []. rewrite app_nil_r. repeat split; auto. }
  match goal with
  | |- context [server env sn ?r] => set (req := r)
  end.
  assert (Hreq : Forall isSignedPost [req])
    by (constructor; [split; reflexivity | constructor]).
  destruct (server env sn req) as [e | st h rd e | st h body];
    intros H; inversion H; subst; clear H.
  - split; [apply sameSetup_refl |]. split; [reflexivity |].
    exists [req]. repeat split; auto.
  - split; [apply sameSetup_refl |]. split; [reflexivity |].
    exists [req]. repeat split; auto.
  - simpl. destruct (String.eqb (KID c) EmptyString) eqn:Hk; simpl.
    + split; [repeat split |]. split.
      * intros Hne. apply String.eqb_eq in Hk. contradiction.
      * exists [req]. repeat split; auto.
    + split; [repeat split |]. split; [reflexivity |].
      exists [req]. repeat split; auto.
Qed.

(** X10. Whatever the server answers, a session of requests changes
    nothing of the client but its nonce and its key id, never changes a
    key id the client already has, gives one result per call, and sends
    at most one request per call, each a POST of a JOSE body. *)
Theorem session_keeps_setup (calls : list Call) :
  forall (c : Client) (sn : Sent)
         (rs : list (string * option error)) (c' : Client) (sn' : Sent),
    session env c sn calls = (rs, c', sn') ->
    sameSetup c c'
    /\ (KID c <> EmptyString -> KID c' = KID c)
    /\ length rs = length calls
    /\ exists new, sn' = (sn ++ new)%list
                   /\ length new <= length calls
                   /\ Forall isSignedPost new.
Proof.
  induction calls as [| k rest IH]; intros c sn rs c' sn' Hs; simpl in Hs.
  - inversion Hs; subst. split; [apply sameSetup_refl |].
    split; [reflexivity |]. split; [reflexivity |].
    exists []. rewrite app_nil_r. repeat split; auto.
  - destruct (makeRequest env c sn (claimset k) (target k) (postAsGet k))
      as [[[b err] c1] sn1] eqn:Hm.
    destruct (session env c1 sn1 rest) as [[rs1 c2] sn2] eqn:Hr.
    inversion Hs; subst; clear Hs.
    destruct (makeRequest_frame _ _ _ _ _ _ _ _ _ Hm)
      as (Hset1 & Hkid1 & new1 & -> & Hlen1 & Hall1).
    destruct (IH _ _ _ _ _ Hr) as (Hset2 & Hkid2 & Hlen & new2 & -> & Hlen2 & Hall2).
    split; [exact (sameSetup_trans _ _ _ Hset1 Hset2) |].
    split.
    { intros Hne. rewrite <- (Hkid1 Hne). apply Hkid2. now rewrite (Hkid1 Hne). }
    split; [simpl; now rewrite Hlen |].
    exists (new1 ++ new2)%list. split; [now rewrite app_assoc |].
    split; [rewrite length_app; simpl; lia | now apply Forall_app].
Qed.

End Requests.


Lemma session_keeps_setup_witness :
  let e := World.env [World.created "nonce-1" "https://ca.test/acct/1";
                      World.created "nonce-2" "https://ca.test/order/7"]
                     [] None None in
  let calls := [World.call "https://ca.test/new-acct";
                World.call "https://ca.test/new-order"] in
  let r := Session.session e (World.holding "nonce-0") [] calls in
  Client.KID (snd (fst r)) = "https://ca.test/acct/1"
  /\ Cmd.sameSetup (World.holding "nonce-0") (snd (fst r)).
Proof.
  intros e calls r.
  destruct (session_keeps_setup e calls (World.holding "nonce-0") []
              _ _ _ eq_refl) as (Hset & _).
  split; [reflexivity | exact Hset].
Defined.

(** ** The run of [FetchOrRenewCert] *)

Section Runs.
Import Client Session Cmd.

Variable env : Env.

Ltac open_run :=
  unfold newAccount;
  unfold bind, method, getClient, putClient, ret,
         DNS_AddTextRecord, index0, panic, log_Fatal;
  simpl.


Lemma selectChallenge_skips
    (challenge ch : Challenge) (before after : list Challenge) :
  Forall (fun k => Type_ k <> "dns-01") before ->
  Type_ ch = "dns-01" ->
  selectChallenge challenge (before ++ ch :: after) = ch.
Proof.
  intros Hb Hch. induction Hb as [| k rest Hk _ IH]; simpl.
  - now rewrite Hch.
  - apply String.eqb_neq in Hk. now rewrite Hk.
Qed.

(** X11. Of the challenges offered, [FetchOrRenewCert] takes the first one
    of type dns-01, whatever comes before or after it; with none offered
    the challenge it started with is left. *)
Theorem selectChallenge_first_dns01
    (challenge ch : Challenge) (before after : list Challenge) :
  Forall (fun k => Type_ k <> "dns-01") before ->
  (Type_ ch = "dns-01" ->
   selectChallenge challenge (before ++ ch :: after) = ch)
  /\ selectChallenge challenge before = challenge.
Proof.
  induction 1 as [| k rest Hk _ [IH1 IH2]]; simpl.
  - split; [| reflexivity]. intros Hch. now rewrite Hch.
  - apply String.eqb_neq in Hk. rewrite Hk. split; assumption.
Qed.

(** The ways a run can end, with the DNS calls it made: no call; a
    publication that failed, which ends the process; a publication after
    which the collaborator is gone; a removal that failed, which ends the
    process; or a publication and a removal, both without error. *)
Lemma FetchOrRenewCert_shape (domain : string) (s : St) :
  exists new,
    dns (snd (FetchOrRenewCert env domain s)) = (dns s ++ new)%list
    /\ ((new = []
         /\ ((exists e, fst (FetchOrRenewCert env domain s) = Returned (Some e))
             \/ (exists m, fst (FetchOrRenewCert env domain s) = Panicked m)
             \/ (fst (FetchOrRenewCert env domain s) = Exited 1%Z
                 /\ exists c t e, snd (AcmeAuthHash env c t) = Some e)))
        \/ (exists h e, new = [AddText domain h (Some e)]
                        /\ fst (FetchOrRenewCert env domain s) = Exited 1%Z)
        \/ (exists h m, new = [AddText domain h None]
                        /\ fst (FetchOrRenewCert env domain s) = Panicked m)
        \/ (exists h e, new = [AddText domain h None; RemoveText domain h (Some e)]
                        /\ fst (FetchOrRenewCert env domain s) = Exited 1%Z)
        \/ (exists h x, new = [AddText domain h None; RemoveText domain h None]
                        /\ fst (FetchOrRenewCert env domain s) = Returned x)).
Proof.
  unfold FetchOrRenewCert.
  assert (Hquiet : forall (o : outcome (option error)) (c : Client) (sn : Sent),
             (exists e, o = Returned (Some e)) \/ (exists m, o = Panicked m)
             \/ (o = Exited 1%Z /\ exists c t e, snd (AcmeAuthHash env c t) = Some e) ->
             exists new,
               dns s = (dns s ++ new)%list
               /\ ((new = []
                    /\ ((exists e, o = Returned (Some e))
                        \/ (exists m, o = Panicked m)
                        \/ (o = Exited 1%Z
                            /\ exists c t e, snd (AcmeAuthHash env c t) = Some e)))
                   \/ (exists h e, new = [AddText domain h (Some e)] /\ o = Exited 1%Z)
                   \/ (exists h m, new = [AddText domain h None] /\ o = Panicked m)
                   \/ (exists h e, new = [AddText domain h None;
                                          RemoveText domain h (Some e)]
                                   /\ o = Exited 1%Z)
                   \/ (exists h x, new = [AddText domain h None;
                                          RemoveText domain h None]
                                   /\ o = Returned x))).
  { intros o _ _ Ho. exists []. split; [now rewrite app_nil_r |]. left. now split. }
  destruct (String.eqb domain EmptyString);
    [apply (Hquiet _ (client s) (sent s)); left; eexists; reflexivity |].
  open_run.
  destruct (GetNonce env (sent s) (NewNonce (Directory_ (client s))))
    as [n [e |]]; simpl;
    [apply (Hquiet _ (client s) (sent s)); left; eexists; reflexivity |].
  destruct (makeRequest _ _ _ _ _ _) as [[[b [e |]] c1] sn1]; simpl;
    [apply (Hquiet _ c1 sn1); left; eexists; reflexivity |].
  destruct (CertApply _ _ _ _) as [[[ca [e |]] c2] sn2]; simpl;
    [apply (Hquiet _ c2 sn2); left; eexists; reflexivity |].
  destruct (Authorizations ca) as [| a az]; simpl;
    [apply (Hquiet _ c2 sn2); right; left; eexists; reflexivity |].
  destruct (FetchChallenges _ _ _ _) as [[[cr e3] c3] sn3]; simpl.
  destruct (AcmeAuthHash env c3 _) as [h [e |]] eqn:Hh; simpl.
  { apply (Hquiet _ c3 sn3). right; right. split; [reflexivity |].
    exists c3. do 2 eexists. rewrite Hh. reflexivity. }
  destruct (DNS c3) as [d |] eqn:Hd; simpl;
    [| apply (Hquiet _ c3 sn3); right; left; eexists; reflexivity].
  destruct (AddTextRecord d (dns s) domain h) as [e |] eqn:Ha; simpl.
  { eexists. split; [reflexivity |]. right; left. eauto. }
  unfold defer, bind, method, DNS_RemoveTextRecord, ret, log_Fatal.
  repeat match goal with
         | |- context [ChallengeReady env ?c ?sn ?u] =>
             destruct (ChallengeReady env c sn u) as [[[e |] ?] ?]; simpl
         | |- context [PollForStatus env ?c ?sn ?u] =>
             destruct (PollForStatus env c sn u) as [[[e |] ?] ?]; simpl
         | |- context [DNS ?c] => destruct (DNS c); simpl
         | |- context [match RemoveTextRecord ?m ?calls ?dom ?h with _ => _ end] =>
             destruct (RemoveTextRecord m calls dom h); simpl
         end;
    rewrite <- ?app_assoc; simpl;
    eexists; (split; [reflexivity |]);
    first [ now (right; right; right; right; eauto)
          | now (right; right; right; left; eauto)
          | now (right; right; left; eauto) ].
Qed.

Lemma dnsCallsOf_new (domain : string) (s : St) (new : list DNSCall) :
  dns (snd (FetchOrRenewCert env domain s)) = (dns s ++ new)%list ->
  dnsCallsOf env domain s = new.
Proof.
  intros H. unfold dnsCallsOf. rewrite H. apply skipn_own_length.
Qed.

(** X12. A run of [FetchOrRenewCert] that returns to its caller has left
    no record behind: either it returned an error without any DNS call, or
    it published one record for the domain and removed it, both without
    error. A run that returns nil is of the second kind. *)
Theorem returned_run_is_clean (domain : string) (s : St) (x : option error) :
  fst (FetchOrRenewCert env domain s) = Returned x ->
  (dnsCallsOf env domain s = [] /\ x <> None)
  \/ exists h, dnsCallsOf env domain s
               = [AddText domain h None; RemoveText domain h None].
Proof.
  intros Hx.
  destruct (FetchOrRenewCert_shape domain s) as (new & Hdns & Hcases).
  rewrite (dnsCallsOf_new _ _ _ Hdns).
  destruct Hcases as [[-> [[e He] | [[m He] | [He _]]]]
                     | [(h & e & _ & He) | [(h & m & _ & He)
                     | [(h & e & _ & He) | (h & y & -> & He)]]]];
    rewrite Hx in He; try discriminate.
  - left. split; [reflexivity |]. inversion He; subst. discriminate.
  - right. now exists h.
Qed.



(** X15. When the steps before the challenge succeed and a dns-01
    challenge is offered, the first DNS call of the run publishes, for the
    domain, base64url(SHA-256(token "." base64url(thumbprint))) for the
    token of the first dns-01 challenge offered. *)
Theorem first_dns01_token_is_published
    (domain : string) (s : St)
    (n b : string) (c1 : Client) (sn1 : Sent)
    (ca : CertApplyResponse) (c2 : Client) (sn2 : Sent)
    (a : string) (az : list string)
    (cr : ChallengeResponse) (e3 : option error) (c3 : Client) (sn3 : Sent)
    (before after : list Challenge) (ch : Challenge)
    (thumb : string) (d : DNSModifier) :
  domain <> EmptyString ->
  GetNonce env (sent s) (NewNonce (Directory_ (client s))) = (n, None) ->
  makeRequest env (set_Nonce (client s) n) (sent s)
    (NewAccountClaims {| TermsOfServiceAgreed := true;
                         Contact := ContactEmails (client s) |})
    (NewAccount (Directory_ (client s))) false = (b, None, c1, sn1) ->
  CertApply env c1 sn1 [domain] = (ca, None, c2, sn2) ->
  Authorizations ca = a :: az ->
  FetchChallenges env c2 sn2 a = (cr, e3, c3, sn3) ->
  Challenges cr = (before ++ ch :: after)%list ->
  Forall (fun k => Type_ k <> "dns-01") before ->
  Type_ ch = "dns-01" ->
  JWKThumbprint env (Key c3) = (thumb, None) ->
  DNS c3 = Some d ->
  exists err later,
    dnsCallsOf env domain s
    = AddText domain
        (RawURLEncoding env
           (sha256_Sum env (Token ch ++ "." ++ RawURLEncoding env thumb)))
        err :: later.
Proof.
  intros Hdom Hnonce Hacct Happly Hauthz Hfetch Hoffer Hbefore Hch Hthumb Hdns.
  destruct (FetchOrRenewCert_shape domain s) as (new & Hnew & Hcases).
  rewrite (dnsCallsOf_new _ _ _ Hnew).
  assert (Hfirst : exists err later,
             dns (snd (FetchOrRenewCert env domain s))
             = (dns s ++ AddText domain
                  (RawURLEncoding env
                     (sha256_Sum env (Token ch ++ "." ++ RawURLEncoding env thumb)))
                  err :: later)%list).
  { clear Hnew Hcases new.
    apply String.eqb_neq in Hdom.
    unfold FetchOrRenewCert. rewrite Hdom.
    open_run.
    rewrite Hnonce. simpl. rewrite Hacct. simpl. rewrite Happly. simpl.
    rewrite Hauthz. simpl. rewrite Hfetch. simpl.
    rewrite Hoffer.
    rewrite (selectChallenge_skips zeroChallenge ch before after Hbefore Hch).
    unfold AcmeAuthHash, acmeAuthString. rewrite Hthumb. simpl.
    rewrite Hdns. simpl.
    match goal with
    | |- context [AddTextRecord d ?calls ?dom ?h] =>
        exists (AddTextRecord d calls dom h)
    end.
    unfold defer, bind, method, DNS_RemoveTextRecord, ret, log_Fatal.
    destruct (AddTextRecord d _ _ _); simpl.
    { eexists. reflexivity. }
    repeat match goal with
           | |- context [ChallengeReady env ?c ?sn ?u] =>
               destruct (ChallengeReady env c sn u) as [[[e |] ?] ?]; simpl
           | |- context [PollForStatus env ?c ?sn ?u] =>
               destruct (PollForStatus env c sn u) as [[[e |] ?] ?]; simpl
           | |- context [DNS ?c] => destruct (DNS c); simpl
           | |- context [match RemoveTextRecord ?m ?calls ?dom ?h with _ => _ end] =>
               destruct (RemoveTextRecord m calls dom h); simpl
           end;
      eexists; rewrite <- ?app_assoc; reflexivity. }
  destruct Hfirst as (err & later & Hfirst).
  rewrite Hnew in Hfirst. apply app_inv_head in Hfirst.
  exists err, later. exact Hfirst.
Qed.

Lemma paired_app (a b : list DNSCall) : paired a -> paired b -> paired (a ++ b).
Proof.
  induction 1 as [| d t rest _ IH]; intros Hb; simpl; [exact Hb |].
  constructor. now apply IH.
Qed.

(** X16. When the loop over the domains comes to its end, the DNS calls it
    made are pairs: each record was published without error and removed
    without error right after, before the next domain was begun. *)
Theorem renewAll_leaves_no_record (domains : list string) :
  forall s,
    fst (renewAll env domains s) = Returned tt ->
    exists new,
      dns (snd (renewAll env domains s)) = (dns s ++ new)%list /\ paired new.
Proof.
  induction domains as [| domain rest IH]; intros s Hret; simpl in *.
  - exists []. split; [now rewrite app_nil_r | constructor].
  - unfold bind in *.
    destruct (FetchOrRenewCert_shape domain s) as (new & Hdns & Hcases).
    destruct (FetchOrRenewCert env domain s) as [[x | m | n] s1] eqn:Hrun;
      simpl in *; try discriminate.
    destruct (IH s1 Hret) as (new' & Hdns' & Hp).
    exists (new ++ new')%list. rewrite Hdns', Hdns, app_assoc.
    split; [reflexivity |]. apply paired_app; [| exact Hp].
    destruct Hcases as [[-> _] | [(h & e & _ & He) | [(h & m & _ & He)
                       | [(h & e & _ & He) | (h & y & -> & _)]]]];
      try discriminate; repeat constructor.
Qed.

End Runs.

Lemma selectChallenge_first_dns01_witness :
  Client.selectChallenge Client.zeroChallenge
    ([World.http01] ++ World.dns01 :: [World.http01]) = World.dns01
  /\ Client.selectChallenge Client.zeroChallenge [World.http01]
     = Client.zeroChallenge.
Proof.
  destruct (selectChallenge_first_dns01 Client.zeroChallenge World.dns01
              [World.http01] [World.http01]) as [H1 H2].
  - repeat constructor. discriminate.
  - split; [apply H1; reflexivity | exact H2].
Defined.

Lemma returned_run_is_clean_witness :
  let e := World.env [World.created "nonce-1" "https://ca.test/acct/1"]
                     [World.dns01] None None in
  let s := World.start (World.dnsModifier None None) in
  (Session.dnsCallsOf e "example.org" s = [] /\ @None error <> None)
  \/ exists h, Session.dnsCallsOf e "example.org" s
               = [Client.AddText "example.org" h None;
                  Client.RemoveText "example.org" h None].
Proof.
  intros e s.
  exact (returned_run_is_clean e "example.org" s None eq_refl).
Defined.



Lemma first_dns01_token_is_published_witness :
  let e := World.env [World.created "nonce-1" "https://ca.test/acct/1"]
                     [World.http01; World.dns01] None None in
  let s := World.start (World.dnsModifier None None) in
  exists err later,
    Session.dnsCallsOf e "example.org" s
    = Client.AddText "example.org" "b64(sha256(abc123.b64(thumbprint)))" err
      :: later.
Proof.
  intros e s.
  refine (first_dns01_token_is_published e "example.org" s
            _ _ _ _ _ _ _ _ _ _ _ _ _ [World.http01] [] World.dns01
            "thumbprint" _
            _ _ _ _ _ _ _ _ _ _ _).
  - discriminate.
  - reflexivity.
  - reflexivity.
  - reflexivity.
  - reflexivity.
  - reflexivity.
  - reflexivity.
  - repeat constructor. discriminate.
  - reflexivity.
  - reflexivity.
  - reflexivity.
Defined.

Lemma renewAll_leaves_no_record_witness :
  let e := World.env [World.created "nonce-1" "https://ca.test/acct/1";
                      World.created "nonce-2" "https://ca.test/acct/1"]
                     [World.dns01] None (Some "order is invalid") in
  let s := World.start (World.dnsModifier None None) in
  exists new,
    Client.dns (snd (Cmd.renewAll e ["example.org"; "example.net"] s))
    = (Client.dns s ++ new)%list
    /\ Cmd.paired new.
Proof.
  intros e s.
  exact (renewAll_leaves_no_record e ["example.org"; "example.net"] s eq_refl).
Defined.

(** ** Building the client *)

Section Building.
Import Client Cmd.

Variable env : Env.

Lemma prependContacts_length (t : string -> string) (l : list string) :
  length (prependContacts t l) = length l.
Proof.
  induction l as [| x r IH]; simpl; [reflexivity | now rewrite IH].
Qed.

Lemma prependContacts_prefixed_fixed (t : string -> string) (l : list string) :
  Forall (fun s => Go.HasPrefix s "mailto:" = true) l ->
  prependContacts t l = l.
Proof.
  induction 1 as [| x r Hx _ IH]; simpl; [reflexivity |].
  now rewrite (mailto_fixed t x Hx), IH.
Qed.

(** X17. [prependContacts] returns as many contacts as it was given, and
    it returns the list it was given exactly when every contact in it
    already begins with "mailto:". *)
Theorem prependContacts_fixed_points (t : string -> string) (l : list string) :
  length (prependContacts t l) = length l
  /\ (prependContacts t l = l
      <-> Forall (fun s => Go.HasPrefix s "mailto:" = true) l).
Proof.
  split; [apply prependContacts_length |].
  induction l as [| x r IH]; simpl.
  - split; [constructor | reflexivity].
  - split.
    + intros H. inversion H as [[Hx Hr]]. constructor.
      * rewrite <- Hx at 1. apply mailto_prefixed.
      * rewrite Hr. now apply IH.
    + intros H. exact (prependContacts_prefixed_fixed t (x :: r) H).
Qed.

Lemma contactsOf_prefixed (t : string -> string) (arg : string) :
  Forall (fun s => Go.HasPrefix s "mailto:" = true) (contactsOf t arg).
Proof.
  unfold contactsOf. apply Forall_map, Forall_forall. intros s _.
  unfold Go.HasPrefix. simpl.
  repeat (destruct (ascii_dec _ _) as [_ | Hne]; [| now elim Hne]).
  now destruct (t s).
Qed.

(** X18. The contacts the command makes of its [--contacts] argument, one
    per comma-separated entry, each trimmed and set behind "mailto:", are
    the contacts of the client [NewClient] returns, also when it returns
    an error: [NewClient] adds no second "mailto:". *)
Theorem command_contacts_reach_client
    (dirURL contactsArg : string) (csr : option CertStoreRetriever)
    (dm : option DNSModifier) (opts : ClientOpts)
    (c : Client) (err : option error) :
  opt_ContactEmails opts = contactsOf (TrimSpace env) contactsArg ->
  NewClient env dirURL csr dm opts = Returned (c, err) ->
  ContactEmails c = contactsOf (TrimSpace env) contactsArg
  /\ length (ContactEmails c) = length (Go.Split contactsArg ","%char).
Proof.
  intros Ho Hn.
  assert (Hc : ContactEmails c = contactsOf (TrimSpace env) contactsArg).
  { pose proof (prependContacts_prefixed_fixed (TrimSpace env) _
                  (contactsOf_prefixed (TrimSpace env) contactsArg)) as Hfix.
    unfold NewClient in Hn. rewrite Ho, Hfix in Hn.
    destruct (queryDirectory env dirURL) as [dir [e |]].
    - now inversion Hn.
    - destruct (opt_AccountKey opts) as [k |].
      + destruct (opt_Logger opts); now inversion Hn.
      + destruct (GenerateKey env) as [k [e |]]; [discriminate |].
        simpl in Hn. destruct (opt_Logger opts); now inversion Hn. }
  split; [exact Hc |].
  rewrite Hc. unfold contactsOf. apply length_map.
Qed.

(** X19. How [NewClient] ends. When the directory cannot be fetched it
    returns that error with a client that has no DNS modifier and no
    certificate store, whatever was passed in. With a directory and an
    account key it returns nil with a client that holds the key, the
    directory and the collaborators passed in, and neither nonce nor key
    id. It ends the process only when no account key was given and
    generating one fails. *)
Theorem NewClient_outcomes
    (dirURL : string) (csr : option CertStoreRetriever)
    (dm : option DNSModifier) (opts : ClientOpts) :
  (forall dir e,
     queryDirectory env dirURL = (dir, Some e) ->
     exists c, NewClient env dirURL csr dm opts = Returned (c, Some e)
               /\ DNS c = None /\ CertsManager c = None)
  /\ (forall dir k,
        queryDirectory env dirURL = (dir, None) ->
        opt_AccountKey opts = Some k ->
        exists c, NewClient env dirURL csr dm opts = Returned (c, None)
                  /\ Key c = Some k /\ Directory_ c = dir
                  /\ DNS c = dm /\ CertsManager c = csr
                  /\ Nonce c = EmptyString /\ KID c = EmptyString)
  /\ (forall n,
        NewClient env dirURL csr dm opts = Exited n ->
        n = 1%Z /\ opt_AccountKey opts = None
        /\ exists e, snd (GenerateKey env) = Some e).
Proof.
  unfold NewClient. split; [| split].
  - intros dir e Hq. rewrite Hq. eexists. split; [reflexivity |].
    split; reflexivity.
  - intros dir k Hq Hk. rewrite Hq, Hk. eexists. split; [reflexivity |].
    destruct (opt_Logger opts); repeat split.
  - intros n.
    destruct (queryDirectory env dirURL) as [dir [e |]]; [discriminate |].
    destruct (opt_AccountKey opts) as [k |]; [discriminate |].
    destruct (GenerateKey env) as [k [e |]]; simpl; [| discriminate].
    intros H. inversion H. repeat split. now exists e.
Qed.

End Building.

Lemma prependContacts_fixed_points_witness :
  length (Client.prependContacts (fun s => s) ["a@example.org"; "mailto:b@example.org"])
  = 2
  /\ Client.prependContacts (fun s => s) ["mailto:a@example.org"]
     = ["mailto:a@example.org"].
Proof.
  split.
  - exact (proj1 (prependContacts_fixed_points (fun s => s)
                    ["a@example.org"; "mailto:b@example.org"])).
  - apply (proj2 (prependContacts_fixed_points (fun s => s)
                    ["mailto:a@example.org"])).
    repeat constructor.
Defined.

Lemma command_contacts_reach_client_witness :
  let e := World.env [] [] None None in
  let opts := {| Client.opt_AccountKey := Some World.accountKey;
                 Client.opt_CertKey := None;
                 Client.opt_ContactEmails :=
                   Cmd.contactsOf (fun s => s) "a@example.org,b@example.org";
                 Client.opt_Logger := Some Client.StdoutLogger |} in
  exists c,
    Client.NewClient e "https://ca.test/dir" None None opts = Returned (c, None)
    /\ Client.ContactEmails c = ["mailto:a@example.org"; "mailto:b@example.org"]
    /\ length (Client.ContactEmails c) = 2.
Proof.
  intros e opts. eexists. split; [reflexivity |].
  exact (command_contacts_reach_client e "https://ca.test/dir"
           "a@example.org,b@example.org" None None opts _ None eq_refl eq_refl).
Defined.

Lemma NewClient_outcomes_witness :
  let e := World.env [] [] None None in
  let opts := {| Client.opt_AccountKey := Some World.accountKey;
                 Client.opt_CertKey := None;
                 Client.opt_ContactEmails := ["a@example.org"];
                 Client.opt_Logger := None |} in
  exists c,
    Client.NewClient e "https://ca.test/dir" None
      (Some (World.dnsModifier None None)) opts = Returned (c, None)
    /\ Client.Key c = Some World.accountKey
    /\ Client.Directory_ c = World.directory
    /\ Client.DNS c = Some (World.dnsModifier None None)
    /\ Client.CertsManager c = None
    /\ Client.Nonce c = EmptyString /\ Client.KID c = EmptyString.
Proof.
  intros e opts.
  exact (proj1 (proj2 (NewClient_outcomes e "https://ca.test/dir" None
                         (Some (World.dnsModifier None None)) opts))
           World.directory World.accountKey eq_refl eq_refl).
Defined.

(** ** The zone that is looked up, and blank domains *)

Section ZoneName.
Import Route53 Zone.

Lemma Split_pieces_no_sep (s : string) (sep : ascii) :
  Forall (fun p => SecretStore.occurs sep p = false) (Go.Split s sep).
Proof.
  induction s as [| c r IH]; simpl.
  - repeat constructor.
  - destruct (Ascii.eqb c sep) eqn:Hc.
    + constructor; [reflexivity | exact IH].
    + destruct (Go.Split r sep) as [| h t]; [repeat constructor; simpl; now rewrite Hc |].
      inversion IH; subst. constructor; [simpl; now rewrite Hc | assumption].
Qed.

Lemma Split_no_sep (s : string) (sep : ascii) :
  SecretStore.occurs sep s = false -> Go.Split s sep = [s].
Proof.
  induction s as [| c r IH]; simpl; [reflexivity |].
  intros H. apply orb_false_elim in H. destruct H as [Hc Hr].
  rewrite Hc, (IH Hr). reflexivity.
Qed.

Lemma Split_two (a b : string) (sep : ascii) :
  SecretStore.occurs sep a = false -> SecretStore.occurs sep b = false ->
  Go.Split (a ++ String sep b) sep = [a; b].
Proof.
  intros Ha Hb. induction a as [| c r IH]; simpl.
  - rewrite Ascii.eqb_refl. now rewrite (Split_no_sep b sep Hb).
  - simpl in Ha. apply orb_false_elim in Ha. destruct Ha as [Hc Hr].
    rewrite Hc, (IH Hr). reflexivity.
Qed.

Lemma last_two {A} (h : list A) :
  2 <= length h ->
  exists front x y, h = (front ++ [x; y])%list
                    /\ skipn (length h - 2) h = [x; y].
Proof.
  intros Hl.
  pose proof (firstn_skipn (length h - 2) h) as Hsplit.
  assert (Hlen : length (skipn (length h - 2) h) = 2)
    by (rewrite length_skipn; lia).
  destruct (skipn (length h - 2) h) as [| x [| y [| z t]]]; try discriminate.
  exists (firstn (length h - 2) h), x, y. split; [now symmetry | reflexivity].
Qed.

(** X20. The zone [findHostedZoneID] looks up has exactly two labels,
    the last two proper labels of the host name, however many labels the
    host name has. *)
Theorem registered_domain_has_two_labels (hostname host domain : string) :
  splitHostname hostname = (host, domain, None) ->
  exists front l1 l2,
    filter isLabel (Go.Split hostname "."%char) = (front ++ [l1; l2])%list
    /\ domain = l1 ++ "." ++ l2
    /\ Go.Split domain "."%char = [l1; l2]
    /\ isLabel l1 = true /\ isLabel l2 = true.
Proof.
  unfold splitHostname.
  set (h := filter isLabel (Go.Split hostname "."%char)).
  destruct (Nat.ltb (length h) 2) eqn:Hlt; [discriminate |].
  apply Nat.ltb_ge in Hlt. intros Heq. inversion Heq; subst; clear Heq.
  destruct (last_two h Hlt) as (front & l1 & l2 & Hh & Hdrop).
  unfold Go.drop. rewrite Hdrop.
  assert (Hin : forall l, In l [l1; l2] ->
                  isLabel l = true /\ SecretStore.occurs "."%char l = false).
  { intros l Hl.
    assert (Hinh : In l h) by (rewrite Hh; apply in_or_app; now right).
    unfold h in Hinh. apply filter_In in Hinh. destruct Hinh as [Hs Hp].
    split; [exact Hp |].
    pose proof (Split_pieces_no_sep hostname "."%char) as Hall.
    rewrite Forall_forall in Hall. now apply Hall. }
  destruct (Hin l1 (or_introl eq_refl)) as [Hp1 Hd1].
  destruct (Hin l2 (or_intror (or_introl eq_refl))) as [Hp2 Hd2].
  exists front, l1, l2. split; [exact Hh |]. split; [reflexivity |].
  split; [| now split].
  unfold Go.Join. simpl. exact (Split_two l1 l2 "."%char Hd1 Hd2).
Qed.

End ZoneName.

Lemma registered_domain_has_two_labels_witness :
  exists front l1 l2,
    filter Route53.isLabel (Go.Split "*.shop.example.co.uk" "."%char)
    = (front ++ [l1; l2])%list
    /\ "co.uk" = l1 ++ "." ++ l2
    /\ Go.Split "co.uk" "."%char = [l1; l2]
    /\ Route53.isLabel l1 = true /\ Route53.isLabel l2 = true.
Proof.
  exact (registered_domain_has_two_labels "*.shop.example.co.uk"
           "shop.example" "co.uk" eq_refl).
Defined.

Section BlankDomains.
Import Client Cmd.

Variable env : Env.

(** X21. When every comma-separated entry of the [--domains] argument is
    blank, that is trims to the empty string, as for an empty argument,
    the loop over the domains comes to its end and has done nothing: no
    request was sent, no DNS call made, and the client is as it was. *)
Theorem blank_domains_do_nothing
    (trimSpace : string -> string) (domainsArg : string) (s : St) :
  Forall (fun entry => trimSpace entry = EmptyString)
         (Go.Split domainsArg ","%char) ->
  renewAll env (domainsOf trimSpace domainsArg) s = (Returned tt, s).
Proof.
  unfold domainsOf.
  induction 1 as [| entry rest Hentry _ IH]; simpl; [reflexivity |].
  rewrite Hentry. unfold bind. simpl. exact IH.
Qed.

End BlankDomains.

Lemma blank_domains_do_nothing_witness :
  let e := World.env [] [] None None in
  let s := World.start (World.dnsModifier None None) in
  Cmd.renewAll e (Cmd.domainsOf (fun x => x) EmptyString) s = (Returned tt, s).
Proof.
  intros e s.
  apply (blank_domains_do_nothing e (fun x => x) EmptyString s).
  repeat constructor.
Defined.
